(** * Formal LaTeX editor backend

    A shallow embedding of [backend/models.py], [backend/database.py] and
    [backend/server.py].  Records follow the pydantic models, the three
    MongoDB collections are lists in insertion order, and every coroutine
    is a computation in a small state-and-exception monad whose state is
    the store together with the logger output.  The three sources of
    non-determinism (driver failures, [uuid.uuid4] and [datetime.utcnow])
    are oracles indexed by counters kept in the state; what belongs to
    the driver alone (the pages of the document cursor, what its encoder
    refuses of a chat record) is a parameter. *)

From Stdlib Require Import String Ascii List ZArith Bool Arith Lia.
From Stdlib Require Import DecimalString.
From Stdlib Require Import Sorted Permutation Mergesort Orders OrderedTypeEx.
Import ListNotations.
Local Open Scope string_scope.
Set Warnings "-register-all".

(** ** Python values *)

(** [Dict[str, Any]]: the open-ended values of metadata and context
    mappings, as a JSON body gives them.  A dict is an association
    list, in insertion order; a [float] is carried as the text [repr]
    prints for it. *)
Inductive Any : Type :=
| PyNone
| PyBool (b : bool)
| PyInt (z : Z)
| PyFloat (repr_text : string)
| PyStr (s : string)
| PyList (xs : list Any)
| PyDict (kvs : list (string * Any)).

Definition Dict : Type := list (string * Any).

(** A [datetime], as microseconds since the epoch. *)
Definition datetime : Type := Z.

(** BSON has no integer wider than 8 bytes: whether every [int] inside
    a value fits. *)
Fixpoint ints_fit (v : Any) : bool :=
  match v with
  | PyInt z => ((- 2 ^ 63 <=? z) && (z <=? 2 ^ 63 - 1))%Z
  | PyList xs => forallb ints_fit xs
  | PyDict kvs => forallb (fun kv => let '(_, x) := kv in ints_fit x) kvs
  | _ => true
  end.

(** A BSON date counts milliseconds: the datetime the store keeps for
    [t], which is what a read gives back. *)
Definition to_millis (t : datetime) : datetime := (1000 * (t / 1000))%Z.

Module PyRepr.

Definition squote : ascii := "'"%char.
Definition dquote : ascii := ascii_of_nat 34.
Definition backslash : ascii := "\"%char.

Definition contains (c : ascii) (s : string) : bool :=
  existsb (Ascii.eqb c) (list_ascii_of_string s).

(** [repr] of a [str] is single-quoted unless the text holds a single
    quote and no double quote. *)
Definition quote_of (s : string) : ascii :=
  if contains squote s && negb (contains dquote s) then dquote else squote.

Definition hex_digit (n : nat) : ascii :=
  nth n (list_ascii_of_string "0123456789abcdef") "0"%char.

Definition repr_char (q c : ascii) : string :=
  let n := nat_of_ascii c in
  if Ascii.eqb c backslash then String backslash (String backslash "")
  else if Ascii.eqb c q then String backslash (String q "")
  else if (n =? 10)%nat then String backslash "n"
  else if (n =? 13)%nat then String backslash "r"
  else if (n =? 9)%nat then String backslash "t"
  else if (n <? 32)%nat || (n =? 127)%nat then
    String backslash (String "x" (String (hex_digit (n / 16)) (String (hex_digit (n mod 16)) "")))
  else String c "".

Fixpoint repr_body (q : ascii) (s : string) : string :=
  match s with
  | EmptyString => ""
  | String c rest => repr_char q c ++ repr_body q rest
  end.

Definition repr_str (s : string) : string :=
  let q := quote_of s in
  String q (repr_body q s ++ String q "").

Definition repr_int (z : Z) : string := NilZero.string_of_int (Z.to_int z).

(** [repr] of a value; a dict prints its items in insertion order. *)
Fixpoint repr (v : Any) : string :=
  match v with
  | PyNone => "None"
  | PyBool true => "True"
  | PyBool false => "False"
  | PyInt z => repr_int z
  | PyFloat text => text
  | PyStr s => repr_str s
  | PyList xs => "[" ++ String.concat ", " (map repr xs) ++ "]"
  | PyDict kvs =>
      "{" ++ String.concat ", "
               (map (fun kv => let '(k, x) := kv in repr_str k ++ ": " ++ repr x) kvs)
          ++ "}"
  end.

(** [str(v)]: the text itself for a [str], [repr] for everything else. *)
Definition str (v : Any) : string :=
  match v with
  | PyStr s => s
  | _ => repr v
  end.

(** [str(n)] for a non-negative [int]. *)
Definition str_nat (n : nat) : string := NilZero.string_of_uint (Nat.to_uint n).

End PyRepr.

(** ** models.py *)

Record DocumentModel : Type := {
  doc_id : string;
  doc_title : string;
  doc_content : string;
  doc_template_id : option string;
  doc_created_at : datetime;
  doc_updated_at : datetime;
  doc_tags : list string;
  doc_is_public : bool;
  doc_metadata : Dict
}.

Record TemplateModel : Type := {
  tpl_id : string;
  tpl_name : string;
  tpl_description : string;
  tpl_content : string;
  tpl_category : string;
  tpl_preview_image : option string;
  tpl_created_at : datetime;
  tpl_is_builtin : bool;
  tpl_metadata : Dict
}.

Record ChatMessage : Type := {
  msg_id : string;
  msg_document_id : string;
  msg_message : string;
  msg_response : string;
  msg_timestamp : datetime;
  msg_context : Dict
}.

Record DocumentCreate : Type := {
  dc_title : string;
  dc_content : string;
  dc_template_id : option string;
  dc_tags : list string
}.

Record DocumentUpdate : Type := {
  du_title : option string;
  du_content : option string;
  du_tags : option (list string);
  du_metadata : option Dict
}.

Record ChatRequest : Type := {
  cr_document_id : string;
  cr_message : string;
  cr_context : option Dict
}.

(** A document as a read gives it back: what was handed to the driver,
    with its two datetimes as the store keeps them. *)
Definition read_back (d : DocumentModel) : DocumentModel :=
  {| doc_id := doc_id d; doc_title := doc_title d; doc_content := doc_content d;
     doc_template_id := doc_template_id d;
     doc_created_at := to_millis (doc_created_at d);
     doc_updated_at := to_millis (doc_updated_at d);
     doc_tags := doc_tags d; doc_is_public := doc_is_public d;
     doc_metadata := doc_metadata d |}.

(** [DocumentCreate(title=..., ...)]: a field left out of the request
    body ([None] here) takes the default declared in the model. *)
Definition DocumentCreate_init (title : string) (content : option string)
    (template_id : option string) (tags : option (list string)) : DocumentCreate :=
  {| dc_title := title;
     dc_content := match content with Some c => c | None => "" end;
     dc_template_id := template_id;
     dc_tags := match tags with Some t => t | None => [] end |}.

(** A document of the [templates] collection.  The seeder writes dicts
    with six keys; the five keys [TemplateModel] requires are always
    there, the keys for which it declares a default may be missing from
    a stored dict. *)
Record TemplateDoc : Type := {
  td_id : string;
  td_name : string;
  td_description : string;
  td_category : string;
  td_is_builtin : option bool;
  td_content : string;
  td_preview_image : option string;
  td_created_at : option datetime;
  td_metadata : option Dict
}.

(** ** Exceptions, logging and the store *)

Inductive Exception : Type :=
| HTTPException (status_code : nat) (detail : string)
| NameError (name : string)
| TypeError (msg : string)
| ValueError (msg : string)
| OverflowError (msg : string)
| InvalidDocument (msg : string)
| PyMongoError (msg : string)
| OperationFailure (msg : string)
| DuplicateKeyError (collection key : string).

(** [str(e)], as the f-strings of the log messages print it. *)
Definition exc_str (e : Exception) : string :=
  match e with
  | HTTPException _ detail => detail
  | NameError name => "name '" ++ name ++ "' is not defined"
  | TypeError msg => msg
  | ValueError msg => msg
  | OverflowError msg => msg
  | InvalidDocument msg => msg
  | PyMongoError msg => msg
  | OperationFailure msg => msg
  | DuplicateKeyError c k => "E11000 duplicate key error collection: formal_db." ++ c ++ " dup key: " ++ k
  end.

Inductive Level : Type := INFO | WARNING | ERROR.

Definition LogRecord : Type := (Level * string)%type.

(** The three collections of [formal_db] the program opens. *)
Inductive Collection : Type := c_documents | c_templates | c_chat_messages.

Definition Collection_eqb (a b : Collection) : bool :=
  match a, b with
  | c_documents, c_documents => true
  | c_templates, c_templates => true
  | c_chat_messages, c_chat_messages => true
  | _, _ => false
  end.

Definition collection_name (c : Collection) : string :=
  match c with
  | c_documents => "documents"
  | c_templates => "templates"
  | c_chat_messages => "chat_messages"
  end.

Record Index : Type := {
  ix_collection : Collection;
  ix_key : string;
  ix_unique : bool
}.

(** The state every coroutine runs in: the collections in insertion
    order, the indexes built so far, the logger output, and how many round
    trips to the store, [uuid4()] draws and [utcnow()] readings happened.
    [documents] holds the records as they were handed to the driver;
    what the store keeps of them is [read_back]. *)
Record World : Type := {
  documents : list DocumentModel;
  templates : list TemplateDoc;
  chat_messages : list ChatMessage;
  indexes : list Index;
  log : list LogRecord;
  calls : nat;
  uuids : nat;
  ticks : nat
}.

Definition empty_world : World :=
  {| documents := []; templates := []; chat_messages := []; indexes := [];
     log := []; calls := 0; uuids := 0; ticks := 0 |}.

Definition set_documents (ds : list DocumentModel) (w : World) : World :=
  {| documents := ds; templates := templates w; chat_messages := chat_messages w;
     indexes := indexes w; log := log w; calls := calls w; uuids := uuids w;
     ticks := ticks w |}.

Definition set_templates (ts : list TemplateDoc) (w : World) : World :=
  {| documents := documents w; templates := ts; chat_messages := chat_messages w;
     indexes := indexes w; log := log w; calls := calls w; uuids := uuids w;
     ticks := ticks w |}.

Definition set_chat_messages (ms : list ChatMessage) (w : World) : World :=
  {| documents := documents w; templates := templates w; chat_messages := ms;
     indexes := indexes w; log := log w; calls := calls w; uuids := uuids w;
     ticks := ticks w |}.

Definition set_indexes (ixs : list Index) (w : World) : World :=
  {| documents := documents w; templates := templates w; chat_messages := chat_messages w;
     indexes := ixs; log := log w; calls := calls w; uuids := uuids w;
     ticks := ticks w |}.

Definition set_log (l : list LogRecord) (w : World) : World :=
  {| documents := documents w; templates := templates w; chat_messages := chat_messages w;
     indexes := indexes w; log := l; calls := calls w; uuids := uuids w;
     ticks := ticks w |}.

Definition set_calls (n : nat) (w : World) : World :=
  {| documents := documents w; templates := templates w; chat_messages := chat_messages w;
     indexes := indexes w; log := log w; calls := n; uuids := uuids w;
     ticks := ticks w |}.

Definition set_uuids (n : nat) (w : World) : World :=
  {| documents := documents w; templates := templates w; chat_messages := chat_messages w;
     indexes := indexes w; log := log w; calls := calls w; uuids := n;
     ticks := ticks w |}.

Definition set_ticks (n : nat) (w : World) : World :=
  {| documents := documents w; templates := templates w; chat_messages := chat_messages w;
     indexes := indexes w; log := log w; calls := calls w; uuids := uuids w;
     ticks := n |}.

(** *** The monad of coroutines

    A raised exception keeps the state reached so far: writes already
    sent to the store and lines already logged are not undone. *)
Definition M (A : Type) : Type := World -> (Exception + A) * World.

Definition ret {A : Type} (a : A) : M A := fun w => (inr a, w).

Definition bind {A B : Type} (m : M A) (k : A -> M B) : M B :=
  fun w =>
    match m w with
    | (inl e, w') => (inl e, w')
    | (inr a, w') => k a w'
    end.

Definition raise {A : Type} (e : Exception) : M A := fun w => (inl e, w).

(** [try: body / except Exception as e: handler e]. *)
Definition try_except {A : Type} (body : M A) (handler : Exception -> M A) : M A :=
  fun w =>
    match body w with
    | (inl e, w') => handler e w'
    | (inr a, w') => (inr a, w')
    end.

Declare Scope py_scope.
Delimit Scope py_scope with py.
Notation "x <- c ;; k" := (bind c (fun x => k))
  (at level 61, c at next level, right associativity) : py_scope.
Notation "c ;; k" := (bind c (fun _ => k))
  (at level 61, right associativity) : py_scope.
Local Open Scope py_scope.

(** [for x in xs: body x] *)
Fixpoint for_each {A : Type} (xs : list A) (body : A -> M unit) : M unit :=
  match xs with
  | [] => ret tt
  | x :: rest => body x ;; for_each rest body
  end.

Definition logger (lvl : Level) (msg : string) : M unit :=
  fun w => (inr tt, set_log (log w ++ [(lvl, msg)]) w).

(** *** The [$set] documents of [update_one] *)

Inductive SetField : Type :=
| set_title (v : string)
| set_content (v : string)
| set_tags (v : list string)
| set_metadata (v : Dict)
| set_updated_at (v : datetime).

Definition apply_set (d : DocumentModel) (f : SetField) : DocumentModel :=
  match f with
  | set_title v =>
      {| doc_id := doc_id d; doc_title := v; doc_content := doc_content d;
         doc_template_id := doc_template_id d; doc_created_at := doc_created_at d;
         doc_updated_at := doc_updated_at d; doc_tags := doc_tags d;
         doc_is_public := doc_is_public d; doc_metadata := doc_metadata d |}
  | set_content v =>
      {| doc_id := doc_id d; doc_title := doc_title d; doc_content := v;
         doc_template_id := doc_template_id d; doc_created_at := doc_created_at d;
         doc_updated_at := doc_updated_at d; doc_tags := doc_tags d;
         doc_is_public := doc_is_public d; doc_metadata := doc_metadata d |}
  | set_tags v =>
      {| doc_id := doc_id d; doc_title := doc_title d; doc_content := doc_content d;
         doc_template_id := doc_template_id d; doc_created_at := doc_created_at d;
         doc_updated_at := doc_updated_at d; doc_tags := v;
         doc_is_public := doc_is_public d; doc_metadata := doc_metadata d |}
  | set_metadata v =>
      {| doc_id := doc_id d; doc_title := doc_title d; doc_content := doc_content d;
         doc_template_id := doc_template_id d; doc_created_at := doc_created_at d;
         doc_updated_at := doc_updated_at d; doc_tags := doc_tags d;
         doc_is_public := doc_is_public d; doc_metadata := v |}
  | set_updated_at v =>
      {| doc_id := doc_id d; doc_title := doc_title d; doc_content := doc_content d;
         doc_template_id := doc_template_id d; doc_created_at := doc_created_at d;
         doc_updated_at := v; doc_tags := doc_tags d;
         doc_is_public := doc_is_public d; doc_metadata := doc_metadata d |}
  end.

Definition apply_sets (fs : list SetField) (d : DocumentModel) : DocumentModel :=
  fold_left apply_set fs d.

(** [update_one({"id": id}, {"$set": fs})] on the collection contents:
    the first match in natural order is rewritten; returns [matched_count]. *)
Fixpoint update_first (id : string) (fs : list SetField) (ds : list DocumentModel)
  : nat * list DocumentModel :=
  match ds with
  | [] => (0, [])
  | d :: rest =>
      if doc_id d =? id then (1, apply_sets fs d :: rest)
      else let (n, rest') := update_first id fs rest in (n, d :: rest')
  end.

(** [delete_one({"id": id})]: the first match is removed; returns
    [deleted_count]. *)
Fixpoint delete_first (id : string) (ds : list DocumentModel)
  : nat * list DocumentModel :=
  match ds with
  | [] => (0, [])
  | d :: rest =>
      if doc_id d =? id then (1, rest)
      else let (n, rest') := delete_first id rest in (n, d :: rest')
  end.

(** *** [sort("name", 1)]: ascending binary comparison of the names *)

Module TemplateNameOrder <: TotalLeBool.
Definition t : Type := TemplateDoc.
Definition leb (a b : t) : bool := (td_name a <=? td_name b)%string.
Definition leb_total : forall a b, leb a b = true \/ leb b a = true :=
  fun a b => String.leb_total (td_name a) (td_name b).
End TemplateNameOrder.

Module TemplateSort := Sort TemplateNameOrder.

Definition sort_by_name (ts : list TemplateDoc) : list TemplateDoc :=
  TemplateSort.sort ts.

(** The filter documents the program sends for templates. *)
Definition is_builtin_flagged (t : TemplateDoc) : bool :=
  match td_is_builtin t with
  | Some true => true
  | _ => false
  end.

Definition count_builtin (ts : list TemplateDoc) : nat :=
  length (filter is_builtin_flagged ts).

Definition ids_of (c : Collection) (w : World) : list string :=
  match c with
  | c_documents => map doc_id (documents w)
  | c_templates => map td_id (templates w)
  | c_chat_messages => map msg_id (chat_messages w)
  end.

Fixpoint has_duplicates (l : list string) : bool :=
  match l with
  | [] => false
  | x :: rest => existsb (String.eqb x) rest || has_duplicates rest
  end.

Definition index_on (c : Collection) (key : string) (ix : Index) : bool :=
  Collection_eqb (ix_collection ix) c && (ix_key ix =? key).

Definition has_unique_index (c : Collection) (key : string) (w : World) : bool :=
  existsb (fun ix => index_on c key ix && ix_unique ix) (indexes w).

(** An insert is refused when a unique index on [id] exists and the id
    is taken. *)
Definition id_conflict (c : Collection) (id : string) (w : World) : bool :=
  has_unique_index c "id" w && existsb (String.eqb id) (ids_of c w).

(** ** The built-in templates of [initialize_templates] *)

Definition template_article_content : string :=
"\documentclass[12pt]{article}
\usepackage[utf8]{inputenc}
\usepackage{amsmath}
\usepackage{amsfonts}
\usepackage{amssymb}
\usepackage{geometry}
\geometry{margin=1in}

\title{Your Title Here}
\author{Your Name}
\date{\today}

\begin{document}

\maketitle

\begin{abstract}
Your abstract goes here. This should be a brief summary of your work.
\end{abstract}

\section{Introduction}
Your introduction content goes here.

\section{Methodology}
Describe your methodology here.

\section{Results}
Present your results here.

\section{Conclusion}
Your conclusions go here.

\bibliographystyle{plain}
\bibliography{references}

\end{document}".

Definition template_report_content : string :=
"\documentclass[12pt]{report}
\usepackage[utf8]{inputenc}
\usepackage{geometry}
\usepackage{graphicx}
\usepackage{fancyhdr}
\geometry{margin=1in}

\pagestyle{fancy}
\fancyhf{}
\rhead{\thepage}
\lhead{Business Report}

\title{Business Report Title}
\author{Company Name}
\date{\today}

\begin{document}

\maketitle

\chapter{Executive Summary}
Provide a high-level overview of the report findings and recommendations.

\chapter{Introduction}
Introduce the purpose and scope of this report.

\chapter{Analysis}
Present your detailed analysis here.

\chapter{Recommendations}
Provide actionable recommendations based on your analysis.

\chapter{Conclusion}
Summarize the key points and next steps.

\end{document}".

Definition template_presentation_content : string :=
"\documentclass{beamer}
\usetheme{Madrid}
\usecolortheme{default}

\title{Your Presentation Title}
\author{Your Name}
\institute{Your Institution}
\date{\today}

\begin{document}

\frame{\titlepage}

\begin{frame}
\frametitle{Outline}
\tableofcontents
\end{frame}

\section{Introduction}
\begin{frame}
\frametitle{Introduction}
\begin{itemize}
    \item First point
    \item Second point
    \item Third point
\end{itemize}
\end{frame}

\section{Main Content}
\begin{frame}
\frametitle{Main Point}
Your main content goes here.
\end{frame}

\section{Conclusion}
\begin{frame}
\frametitle{Conclusion}
\begin{itemize}
    \item Summary point 1
    \item Summary point 2
    \item Thank you!
\end{itemize}
\end{frame}

\end{document}".

Definition template_math_content : string :=
"\documentclass[12pt]{article}
\usepackage[utf8]{inputenc}
\usepackage{amsmath}
\usepackage{amsthm}
\usepackage{amssymb}
\usepackage{geometry}
\geometry{margin=1in}

\newtheorem{theorem}{Theorem}
\newtheorem{lemma}{Lemma}
\newtheorem{corollary}{Corollary}
\newtheorem{definition}{Definition}

\title{Mathematical Document}
\author{Your Name}
\date{\today}

\begin{document}

\maketitle

\section{Introduction}
This document demonstrates mathematical typesetting in LaTeX.

\begin{definition}
A function $f: \mathbb{R} \to \mathbb{R}$ is continuous at $x = a$ if...
\end{definition}

\begin{theorem}
For any continuous function $f$ on $[a,b]$, we have:
\begin{equation}
\int_a^b f(x) dx = F(b) - F(a)
\end{equation}
where $F$ is an antiderivative of $f$.
\end{theorem}

\begin{proof}
The proof follows from the Fundamental Theorem of Calculus...
\end{proof}

\section{Examples}
\begin{align}
\frac{d}{dx}\left(\sin(x)\right) &= \cos(x) \\
\frac{d}{dx}\left(e^x\right) &= e^x \\
\frac{d}{dx}\left(\ln(x)\right) &= \frac{1}{x}
\end{align}

\end{document}".

Definition template_letter_content : string :=
"\documentclass[12pt]{letter}
\usepackage[utf8]{inputenc}
\usepackage{geometry}
\geometry{margin=1in}

\signature{Your Name}
\address{Your Address \\ City, State ZIP \\ Email: your.email@example.com}

\begin{document}

\begin{letter}{Recipient Name \\ Recipient Address \\ City, State ZIP}

\opening{Dear [Recipient Name],}

This is the body of your letter. Write your message here with proper paragraphs and formatting.

Second paragraph continues your message with additional details or information you want to convey.

\closing{Sincerely,}

\end{letter}

\end{document}".

Definition seed (id name description category content : string) : TemplateDoc :=
  {| td_id := id; td_name := name; td_description := description;
     td_category := category; td_is_builtin := Some true; td_content := content;
     td_preview_image := None; td_created_at := None; td_metadata := None |}.

Definition builtin_templates : list TemplateDoc :=
  [ seed "template_article" "Academic Article"
      "Standard academic article format with abstract, sections, and bibliography"
      "academic" template_article_content;
    seed "template_report" "Business Report"
      "Professional business report template with executive summary"
      "business" template_report_content;
    seed "template_presentation" "Presentation Slides"
      "LaTeX Beamer presentation template"
      "presentation" template_presentation_content;
    seed "template_math" "Mathematical Document"
      "Template for mathematical proofs and theorems"
      "academic" template_math_content;
    seed "template_letter" "Formal Letter"
      "Professional letter template"
      "business" template_letter_content ].

(** ** Names bound in the module namespace of [server.py]

    The imports of lines 1-11 and the module-level definitions.  A name
    that is neither here nor a Python builtin raises [NameError] when the
    line using it runs. *)
Definition server_globals : list string :=
  [ "FastAPI"; "HTTPException"; "Depends"; "CORSMiddleware"; "JSONResponse";
    "asynccontextmanager"; "os"; "load_dotenv"; "logging"; "List"; "Optional";
    "DocumentModel"; "TemplateModel"; "ChatMessage"; "DocumentCreate";
    "DocumentUpdate"; "ChatRequest";
    "connect_to_mongo"; "close_mongo_connection"; "get_collection";
    "logger"; "lifespan"; "app"; "initialize_templates"; "health_check";
    "create_document"; "get_documents"; "get_document"; "update_document";
    "delete_document"; "get_templates"; "get_template"; "chat_with_ai";
    "get_template_categories" ].

Definition load_global (globals : list string) (name : string) : M unit :=
  if existsb (String.eqb name) globals then ret tt else raise (NameError name).

(** [{k: v for k, v in update_data.dict().items() if v is not None}],
    in the field order of [DocumentUpdate]. *)
Definition present {A : Type} (mk : A -> SetField) (v : option A) : list SetField :=
  match v with
  | Some x => [mk x]
  | None => []
  end.

Definition update_dict_of (update_data : DocumentUpdate) : list SetField :=
  present set_title (du_title update_data)
  ++ present set_content (du_content update_data)
  ++ present set_tags (du_tags update_data)
  ++ present set_metadata (du_metadata update_data).

(** Truth value of a [str]: false exactly for the empty string. *)
Definition truthy_str (s : string) : bool := negb (s =? "").

(** The fixed reply of the chat placeholder. *)
Definition chat_message_text : string :=
  "AI integration coming soon! This is a placeholder response.".

Definition chat_suggestions : list string :=
  [ "Try adding some mathematical equations with \begin{equation}";
    "Consider using \section{} to organize your content";
    "Use \textbf{} for bold text and \textit{} for italic text" ].

Definition chat_response : Any :=
  PyDict [ ("message", PyStr chat_message_text);
           ("suggestions", PyList (map PyStr chat_suggestions)) ].

(** What a route hands back to the framework. *)
Inductive Body : Type :=
| body_document (d : DocumentModel)
| body_documents (ds : list DocumentModel)
| body_template (t : TemplateModel)
| body_templates (ts : list TemplateModel)
| body_json (v : Any).

(** ** Concrete environments for the worked examples *)

(** A store that answers every call. *)
Definition no_driver_error : nat -> option string := fun _ => None.

(** A store whose first call fails and every later call goes through. *)
Definition first_call_fails : nat -> option string :=
  fun n => match n with
           | 0 => Some "connection refused"
           | S _ => None
           end.

(** An id source that never repeats: the n-th id is n zeros before a
    [u]. *)
Fixpoint unary_uuid (n : nat) : string :=
  match n with
  | 0 => "u"
  | S k => String "0" (unary_uuid k)
  end.

Definition clock (n : nat) : datetime := Z.of_nat n.

Definition whole_page (ds : list DocumentModel) (skip limit : Z)
  : Exception + list DocumentModel := inr ds.

(** An encoder that refuses no record. *)
Definition no_encode_error : ChatMessage -> option string := fun _ => None.

Definition one_template_world : World :=
  set_templates
    [ seed "t1" "Notes" "Lecture notes" "academic" "\documentclass{article}" ]
    empty_world.

Definition one_document_world : World :=
  set_documents
    [ {| doc_id := "d1"; doc_title := "Old"; doc_content := "\section{A}";
         doc_template_id := None; doc_created_at := 5%Z; doc_updated_at := 5%Z;
         doc_tags := ["draft"]; doc_is_public := false; doc_metadata := [] |} ]
    empty_world.

(** The store right after a first successful seeding. *)
Definition seeded_world : World := set_templates builtin_templates empty_world.

Definition hello : ChatRequest :=
  {| cr_document_id := "d1"; cr_message := "How do I typeset a matrix?";
     cr_context := None |}.

(** A chat request whose context holds an integer of nine bytes. *)
Definition wide_context : ChatRequest :=
  {| cr_document_id := "d1"; cr_message := "How do I typeset a matrix?";
     cr_context := Some [ ("n", PyInt (2 ^ 64)) ] |}.

Definition title_only (title : string) : DocumentUpdate :=
  {| du_title := Some title; du_content := None; du_tags := None;
     du_metadata := None |}.

(** The document of [one_document_world]. *)
Definition old_document : DocumentModel :=
  {| doc_id := "d1"; doc_title := "Old"; doc_content := "\section{A}";
     doc_template_id := None; doc_created_at := 5%Z; doc_updated_at := 5%Z;
     doc_tags := ["draft"]; doc_is_public := false; doc_metadata := [] |}.

(** The fourth template of the seeder's list. *)
Definition math_template : TemplateDoc :=
  seed "template_math" "Mathematical Document"
    "Template for mathematical proofs and theorems"
    "academic" template_math_content.

Section Backend.

(** Outcome of the n-th round trip to the store: [Some msg] when the
    driver raises. *)
Variable driver_error : nat -> option string.
(** The n-th value of [str(uuid.uuid4())]. *)
Variable uuid4 : nat -> string.
(** The n-th reading of [datetime.utcnow()]. *)
Variable utcnow : nat -> datetime.
(** What the driver returns for
    [find().skip(skip).limit(limit).sort("created_at", -1)] read with
    [to_list(length=limit)]; the cursor is the driver's, not this
    repository's. *)
Variable cursor_page : list DocumentModel -> Z -> Z -> Exception + list DocumentModel.
(** What the driver's BSON encoder says of a chat record beyond the
    width of its integers (a key with a NUL byte, text that is not
    Unicode, nesting or size over the limits): [Some msg] when it
    refuses the record.  The encoder is the driver's, not this
    repository's. *)
Variable encode_error : ChatMessage -> option string.

Definition round_trip : M unit :=
  fun w =>
    let w' := set_calls (S (calls w)) w in
    match driver_error (calls w) with
    | Some msg => (inl (PyMongoError msg), w')
    | None => (inr tt, w')
    end.

Definition fresh_uuid : M string :=
  fun w => (inr (uuid4 (uuids w)), set_uuids (S (uuids w)) w).

Definition now : M datetime :=
  fun w => (inr (utcnow (ticks w)), set_ticks (S (ticks w)) w).

(** *** Driver operations *)

(** [create_index(key, unique=...)]: a no-op when the same index exists,
    refused when the key is indexed with the other uniqueness, and a
    unique index on [id] is refused over duplicate ids.  The program
    asks for uniqueness on [id] only. *)
Definition create_index (c : Collection) (key : string) (unique : bool) : M unit :=
  round_trip ;;
  (fun w =>
     match find (index_on c key) (indexes w) with
     | Some ix =>
         if Bool.eqb (ix_unique ix) unique then (inr tt, w)
         else (inl (OperationFailure "IndexOptionsConflict"), w)
     | None =>
         if unique && (key =? "id") && has_duplicates (ids_of c w)
         then (inl (DuplicateKeyError (collection_name c) key), w)
         else (inr tt,
               set_indexes (indexes w ++ [{| ix_collection := c; ix_key := key;
                                             ix_unique := unique |}]) w)
     end).

Definition insert_one_document (d : DocumentModel) : M unit :=
  round_trip ;;
  (fun w =>
     if id_conflict c_documents (doc_id d) w
     then (inl (DuplicateKeyError "documents" (doc_id d)), w)
     else (inr tt, set_documents (documents w ++ [d]) w)).

Definition insert_one_template (t : TemplateDoc) : M unit :=
  round_trip ;;
  (fun w =>
     if id_conflict c_templates (td_id t) w
     then (inl (DuplicateKeyError "templates" (td_id t)), w)
     else (inr tt, set_templates (templates w ++ [t]) w)).

(** Why a chat record cannot be written, if it cannot: an [int] of the
    context does not fit in 8 bytes, or the encoder refuses the record. *)
Definition bson_error (m : ChatMessage) : option Exception :=
  if ints_fit (PyDict (msg_context m)) then
    match encode_error m with
    | Some msg => Some (InvalidDocument msg)
    | None => None
    end
  else Some (OverflowError "MongoDB can only handle up to 8-byte ints").

(** The record is encoded before anything is sent. *)
Definition insert_one_chat_message (m : ChatMessage) : M unit :=
  match bson_error m with
  | Some e => raise e
  | None =>
      round_trip ;;
      (fun w =>
         if id_conflict c_chat_messages (msg_id m) w
         then (inl (DuplicateKeyError "chat_messages" (msg_id m)), w)
         else (inr tt, set_chat_messages (chat_messages w ++ [m]) w))
  end.

Definition find_one_document (id : string) : M (option DocumentModel) :=
  round_trip ;;
  (fun w =>
     (inr (option_map read_back (find (fun d => doc_id d =? id) (documents w))), w)).

Definition find_one_template (id : string) : M (option TemplateDoc) :=
  round_trip ;;
  (fun w => (inr (find (fun t => td_id t =? id) (templates w)), w)).

(** Returns [matched_count]. *)
Definition update_one_document (id : string) (fs : list SetField) : M nat :=
  round_trip ;;
  (fun w =>
     let (n, ds) := update_first id fs (documents w) in
     (inr n, set_documents ds w)).

(** Returns [deleted_count]. *)
Definition delete_one_document (id : string) : M nat :=
  round_trip ;;
  (fun w =>
     let (n, ds) := delete_first id (documents w) in
     (inr n, set_documents ds w)).

(** [count_documents({"is_builtin": True})] on [templates]. *)
Definition count_documents_builtin : M nat :=
  round_trip ;;
  (fun w => (inr (count_builtin (templates w)), w)).

(** [find(query).sort("name", 1)] read with [to_list(length=None)];
    [query] is [{}] ([None]) or [{"category": c}]. *)
Definition find_templates (query : option string) : M (list TemplateDoc) :=
  round_trip ;;
  (fun w =>
     let matching :=
       match query with
       | Some c => filter (fun t => td_category t =? c) (templates w)
       | None => templates w
       end in
     (inr (sort_by_name matching), w)).

(** The cursor is built before anything is awaited: [skip] refuses a
    negative argument, and [to_list] a negative length, without a call
    to the store. *)
Definition find_documents (skip limit : Z) : M (list DocumentModel) :=
  if (skip <? 0)%Z then raise (ValueError "The 'skip' parameter must be >=0")
  else if (limit <? 0)%Z then raise (ValueError "length must be non-negative")
  else
    round_trip ;;
    (fun w => (cursor_page (map read_back (documents w)) skip limit, w)).

(** *** database.py *)

Definition create_indexes : M unit :=
  try_except
    (create_index c_documents "id" true ;;
     create_index c_documents "created_at" false ;;
     create_index c_documents "tags" false ;;
     create_index c_templates "id" true ;;
     create_index c_templates "category" false ;;
     create_index c_templates "is_builtin" false ;;
     create_index c_chat_messages "document_id" false ;;
     create_index c_chat_messages "timestamp" false ;;
     logger INFO "Database indexes created successfully")
    (fun e => logger WARNING ("Failed to create some indexes: " ++ exc_str e)).

(** The ping is one round trip; a failure is logged and raised again. *)
Definition connect_to_mongo : M unit :=
  try_except
    (round_trip ;;
     logger INFO "Successfully connected to MongoDB" ;;
     create_indexes)
    (fun e => logger ERROR ("Failed to connect to MongoDB: " ++ exc_str e) ;; raise e).

(** *** server.py *)

Definition insert_builtin (template : TemplateDoc) : M unit :=
  try_except
    (insert_one_template template ;;
     logger INFO ("Inserted template: " ++ td_name template))
    (fun e =>
       logger ERROR ("Failed to insert template " ++ td_name template ++ ": " ++ exc_str e)).

Definition initialize_templates : M unit :=
  existing_count <- count_documents_builtin ;;
  if (0 <? existing_count)%nat then
    logger INFO ("Found " ++ PyRepr.str_nat existing_count ++ " existing built-in templates")
  else
    for_each builtin_templates insert_builtin ;;
    logger INFO "Built-in templates initialization completed".

(** The startup half of [lifespan]. *)
Definition lifespan_startup : M unit :=
  connect_to_mongo ;;
  initialize_templates.

Definition health_check : M Any :=
  ret (PyDict [ ("status", PyStr "healthy");
                ("message", PyStr "Formal LaTeX Editor API is running") ]).

(** [DocumentModel] built from the keywords of [document.dict()]: the
    default factories run in field order. *)
Definition DocumentModel_init (document : DocumentCreate) : M DocumentModel :=
  id <- fresh_uuid ;;
  created_at <- now ;;
  updated_at <- now ;;
  ret {| doc_id := id; doc_title := dc_title document;
         doc_content := dc_content document;
         doc_template_id := dc_template_id document;
         doc_created_at := created_at; doc_updated_at := updated_at;
         doc_tags := dc_tags document; doc_is_public := false;
         doc_metadata := [] |}.

(** [except Exception as e: logger.error(...); raise HTTPException(500, ...)] *)
Definition internal_error {A : Type} (what detail : string) (e : Exception) : M A :=
  logger ERROR (what ++ ": " ++ exc_str e) ;;
  raise (HTTPException 500 detail).

(** [except HTTPException: raise], then the handler above. *)
Definition reraise_http {A : Type} (what detail : string) (e : Exception) : M A :=
  match e with
  | HTTPException _ _ => raise e
  | _ => internal_error what detail e
  end.

Definition create_document (document : DocumentCreate) : M DocumentModel :=
  try_except
    (new_document <- DocumentModel_init document ;;
     insert_one_document new_document ;;
     ret new_document)
    (internal_error "Error creating document" "Failed to create document").

Definition get_documents (skip limit : Z) : M (list DocumentModel) :=
  try_except
    (find_documents skip limit)
    (internal_error "Error fetching documents" "Failed to fetch documents").

Definition get_document (document_id : string) : M DocumentModel :=
  try_except
    (document <- find_one_document document_id ;;
     match document with
     | None => raise (HTTPException 404 "Document not found")
     | Some d => ret d
     end)
    (reraise_http ("Error fetching document " ++ document_id) "Failed to fetch document").

(** [update_document] run in a module namespace [globals]; line 351
    looks the name [datetime] up there before anything is sent to the
    store. *)
Definition update_document_in (globals : list string)
    (document_id : string) (update_data : DocumentUpdate) : M DocumentModel :=
  try_except
    (let update_dict := update_dict_of update_data in
     load_global globals "datetime" ;;
     t <- now ;;
     let update_dict := (update_dict ++ [set_updated_at t])%list in
     matched_count <- update_one_document document_id update_dict ;;
     if (matched_count =? 0)%nat then raise (HTTPException 404 "Document not found")
     else
       updated_document <- find_one_document document_id ;;
       match updated_document with
       | Some d => ret d
       | None => raise (TypeError "argument after ** must be a mapping, not NoneType")
       end)
    (reraise_http ("Error updating document " ++ document_id) "Failed to update document").

Definition update_document : string -> DocumentUpdate -> M DocumentModel :=
  update_document_in server_globals.

Definition delete_document (document_id : string) : M Any :=
  try_except
    (deleted_count <- delete_one_document document_id ;;
     if (deleted_count =? 0)%nat then raise (HTTPException 404 "Document not found")
     else ret (PyDict [ ("message", PyStr "Document deleted successfully") ]))
    (reraise_http ("Error deleting document " ++ document_id) "Failed to delete document").

(** [TemplateModel] built from the keys of a stored template: missing
    keys take the model's defaults; a missing [created_at] reads the
    clock. *)
Definition TemplateModel_init (template : TemplateDoc) : M TemplateModel :=
  created_at <- match td_created_at template with
                | Some t => ret t
                | None => now
                end ;;
  ret {| tpl_id := td_id template; tpl_name := td_name template;
         tpl_description := td_description template;
         tpl_content := td_content template;
         tpl_category := td_category template;
         tpl_preview_image := td_preview_image template;
         tpl_created_at := created_at;
         tpl_is_builtin := match td_is_builtin template with
                           | Some b => b
                           | None => true
                           end;
         tpl_metadata := match td_metadata template with
                         | Some m => m
                         | None => []
                         end |}.

(** [[f(x) for x in xs]] *)
Fixpoint comprehension {A B : Type} (f : A -> M B) (xs : list A) : M (list B) :=
  match xs with
  | [] => ret []
  | x :: rest =>
      y <- f x ;;
      ys <- comprehension f rest ;;
      ret (y :: ys)
  end.

(** The query of [get_templates]: [if category:] adds the filter for a
    truthy argument only. *)
Definition templates_query (category : option string) : option string :=
  match category with
  | Some c => if truthy_str c then Some c else None
  | None => None
  end.

Definition get_templates (category : option string) : M (list TemplateModel) :=
  try_except
    (let query := templates_query category in
     templates <- find_templates query ;;
     comprehension TemplateModel_init templates)
    (internal_error "Error fetching templates" "Failed to fetch templates").

Definition get_template (template_id : string) : M TemplateModel :=
  try_except
    (template <- find_one_template template_id ;;
     match template with
     | None => raise (HTTPException 404 "Template not found")
     | Some t => TemplateModel_init t
     end)
    (reraise_http ("Error fetching template " ++ template_id) "Failed to fetch template").

(** [chat_request.context or {}] *)
Definition context_or_empty (context : option Dict) : Dict :=
  match context with
  | Some (kv :: rest) => kv :: rest
  | _ => []
  end.

(** [ChatMessage(document_id=..., message=..., response=..., context=...)] *)
Definition ChatMessage_init (document_id message response : string) (context : Dict)
  : M ChatMessage :=
  id <- fresh_uuid ;;
  timestamp <- now ;;
  ret {| msg_id := id; msg_document_id := document_id; msg_message := message;
         msg_response := response; msg_timestamp := timestamp;
         msg_context := context |}.

Definition chat_with_ai (chat_request : ChatRequest) : M Any :=
  try_except
    (let response := chat_response in
     chat_message <- ChatMessage_init (cr_document_id chat_request)
                       (cr_message chat_request) (PyRepr.str response)
                       (context_or_empty (cr_context chat_request)) ;;
     insert_one_chat_message chat_message ;;
     ret response)
    (internal_error "Error in chat" "Chat service temporarily unavailable").

Definition category_descriptor (id name description : string) : Any :=
  PyDict [ ("id", PyStr id); ("name", PyStr name); ("description", PyStr description) ].

Definition get_template_categories : M Any :=
  ret (PyDict [ ("categories", PyList
    [ category_descriptor "academic" "Academic" "Academic papers, theses, and research documents";
      category_descriptor "business" "Business" "Reports, letters, and business documents";
      category_descriptor "presentation" "Presentation" "Slides and presentation materials";
      category_descriptor "personal" "Personal" "Personal documents and notes" ]) ]).

(** *** The service as a transition system *)

(** What the process runs: the startup half of [lifespan], or one call
    of a route function with the arguments the framework validated and
    passed in.  A request the framework turns away before the route
    function runs is not an event. *)
Inductive Event : Type :=
| Startup
| GET_health
| POST_documents (document : DocumentCreate)
| GET_documents (skip limit : Z)
| GET_document (document_id : string)
| PUT_document (document_id : string) (update_data : DocumentUpdate)
| DELETE_document (document_id : string)
| GET_templates (category : option string)
| GET_template (template_id : string)
| POST_chat (chat_request : ChatRequest)
| GET_categories.

Definition fmap {A B : Type} (f : A -> B) (m : M A) : M B :=
  x <- m ;; ret (f x).

Definition handle (ev : Event) : M Body :=
  match ev with
  | Startup => fmap (fun _ => body_json PyNone) lifespan_startup
  | GET_health => fmap body_json health_check
  | POST_documents document => fmap body_document (create_document document)
  | GET_documents skip limit => fmap body_documents (get_documents skip limit)
  | GET_document id => fmap body_document (get_document id)
  | PUT_document id update_data => fmap body_document (update_document id update_data)
  | DELETE_document id => fmap body_json (delete_document id)
  | GET_templates category => fmap body_templates (get_templates category)
  | GET_template id => fmap body_template (get_template id)
  | POST_chat chat_request => fmap body_json (chat_with_ai chat_request)
  | GET_categories => fmap body_json get_template_categories
  end.

(** A run: the events in order, each with what it answered. *)
Fixpoint run (evs : list Event) (w : World) : list (Event * (Exception + Body)) * World :=
  match evs with
  | [] => ([], w)
  | ev :: rest =>
      let (r, w1) := handle ev w in
      let (trace, w2) := run rest w1 in
      ((ev, r) :: trace, w2)
  end.

(** The documents [POST /api/documents] answered with, oldest first. *)
Fixpoint created_documents (trace : list (Event * (Exception + Body))) : list DocumentModel :=
  match trace with
  | [] => []
  | (POST_documents _, inr (body_document d)) :: rest => d :: created_documents rest
  | _ :: rest => created_documents rest
  end.


(** *** Frame conditions

    [keeps R proj m]: running [m] moves the component [proj] of the state
    along the preorder [R], whether [m] returns or raises. *)
Definition keeps {X A : Type} (R : X -> X -> Prop) (proj : World -> X) (m : M A) : Prop :=
  forall w, R (proj w) (proj (snd (m w))).

(** [n] runs of the seeder alone. *)
Definition seed_times (n : nat) (w : World) : World :=
  Nat.iter n (fun w' => snd (initialize_templates w')) w.

(** The response model [m] carries the stored template [t]: every key
    present in the store is returned as stored, a missing key as the
    default of [TemplateModel]. *)
Definition shows (t : TemplateDoc) (m : TemplateModel) : Prop :=
  tpl_id m = td_id t
  /\ tpl_name m = td_name t
  /\ tpl_description m = td_description t
  /\ tpl_content m = td_content t
  /\ tpl_category m = td_category t
  /\ tpl_preview_image m = td_preview_image t
  /\ tpl_is_builtin m = match td_is_builtin t with Some b => b | None => true end
  /\ tpl_metadata m = match td_metadata t with Some d => d | None => [] end
  /\ (forall c, td_created_at t = Some c -> tpl_created_at m = c).

(** The stored templates a query selects. *)
Definition selected (query : option string) (ts : list TemplateDoc) : list TemplateDoc :=
  match query with
  | Some c => filter (fun t => td_category t =? c) ts
  | None => ts
  end.

(** The index statements of [create_indexes], in program order. *)
Definition index_statements : list Index :=
  [ {| ix_collection := c_documents; ix_key := "id"; ix_unique := true |};
    {| ix_collection := c_documents; ix_key := "created_at"; ix_unique := false |};
    {| ix_collection := c_documents; ix_key := "tags"; ix_unique := false |};
    {| ix_collection := c_templates; ix_key := "id"; ix_unique := true |};
    {| ix_collection := c_templates; ix_key := "category"; ix_unique := false |};
    {| ix_collection := c_templates; ix_key := "is_builtin"; ix_unique := false |};
    {| ix_collection := c_chat_messages; ix_key := "document_id"; ix_unique := false |};
    {| ix_collection := c_chat_messages; ix_key := "timestamp"; ix_unique := false |} ].

Definition run_statement (ix : Index) : M unit :=
  create_index (ix_collection ix) (ix_key ix) (ix_unique ix).

(** The index list after a statement that went through. *)
Definition add_index (ixs : list Index) (ix : Index) : list Index :=
  match find (index_on (ix_collection ix) (ix_key ix)) ixs with
  | Some _ => ixs
  | None => (ixs ++ [ix])%list
  end.

(** Whether the store takes the insert of [t] sent as round trip [n],
    given the ids and indexes of [w0]. *)
Definition accepted (n : nat) (w0 : World) (t : TemplateDoc) : bool :=
  match driver_error n with
  | Some _ => false
  | None => negb (id_conflict c_templates (td_id t) w0)
  end.

(** The templates of [ts] the store takes when their inserts are the
    round trips [n], [n + 1], ... *)
Fixpoint accepted_from (n : nat) (w0 : World) (ts : list TemplateDoc) : list TemplateDoc :=
  match ts with
  | [] => []
  | t :: rest =>
      ((if accepted n w0 t then [t] else []) ++ accepted_from (S n) w0 rest)%list
  end.

(** The line [insert_builtin] logs for [t]. *)
Definition seed_line (t : TemplateDoc) (line : LogRecord) : Prop :=
  line = (INFO, "Inserted template: " ++ td_name t)
  \/ exists e, line = (ERROR, "Failed to insert template " ++ td_name t ++ ": " ++ exc_str e).

(** A document that is not public. *)
Definition private (d : DocumentModel) : Prop := doc_is_public d = false.

(** Moves of the [documents] collection that publish nothing. *)
Definition stays_private (before after : list DocumentModel) : Prop :=
  Forall private before -> Forall private after.

(** Moves of the [templates] collection under seeding: the number of
    builtin-flagged templates stays where it was or below five. *)
Definition seeded_at_most (before after : list TemplateDoc) : Prop :=
  count_builtin after <= Nat.max (count_builtin before) 5.

(** The record [chat_with_ai] builds in state [w]. *)
Definition chat_record (chat_request : ChatRequest) (w : World) : ChatMessage :=
  {| msg_id := uuid4 (uuids w);
     msg_document_id := cr_document_id chat_request;
     msg_message := cr_message chat_request;
     msg_response := PyRepr.str chat_response;
     msg_timestamp := utcnow (ticks w);
     msg_context := context_or_empty (cr_context chat_request) |}.

(** The record [create_document] builds in state [w]. *)
Definition fresh_document (document : DocumentCreate) (w : World) : DocumentModel :=
  {| doc_id := uuid4 (uuids w); doc_title := dc_title document;
     doc_content := dc_content document;
     doc_template_id := dc_template_id document;
     doc_created_at := utcnow (ticks w);
     doc_updated_at := utcnow (S (ticks w));
     doc_tags := dc_tags document; doc_is_public := false;
     doc_metadata := [] |}.

(** [after] is [before] with records appended at its end. *)
Definition extends {A : Type} (before after : list A) : Prop :=
  exists added, after = (before ++ added)%list.

(** The routes registered with [@app.get]. *)
Definition is_get (ev : Event) : bool :=
  match ev with
  | GET_health | GET_documents _ _ | GET_document _ | GET_templates _
  | GET_template _ | GET_categories => true
  | Startup | POST_documents _ | PUT_document _ _ | DELETE_document _
  | POST_chat _ => false
  end.

Definition is_http (e : Exception) : bool :=
  match e with
  | HTTPException _ _ => true
  | _ => false
  end.

(** The [detail] each route gives the 500 of its generic handler. *)
Definition detail_500 (ev : Event) : string :=
  match ev with
  | POST_documents _ => "Failed to create document"
  | GET_documents _ _ => "Failed to fetch documents"
  | GET_document _ => "Failed to fetch document"
  | PUT_document _ _ => "Failed to update document"
  | DELETE_document _ => "Failed to delete document"
  | GET_templates _ => "Failed to fetch templates"
  | GET_template _ => "Failed to fetch template"
  | POST_chat _ => "Chat service temporarily unavailable"
  | Startup | GET_health | GET_categories => ""
  end.

(** The [detail] of the 404 a route can raise. *)
Definition detail_404 (ev : Event) : string :=
  match ev with
  | GET_template _ => "Template not found"
  | _ => "Document not found"
  end.

(** How a request ended and what it logged on the way: an answer or a
    404 with nothing logged, or the route's 500 with one error line. *)
Definition outcome {A : Type} (ev : Event) (w : World) (r : (Exception + A) * World) : Prop :=
  match fst r with
  | inr _ => log (snd r) = log w
  | inl e =>
      (e = HTTPException 404 (detail_404 ev) /\ log (snd r) = log w)
      \/ (e = HTTPException 500 (detail_500 ev)
          /\ exists line, log (snd r) = (log w ++ [(ERROR, line)])%list)
  end.

(** What identifies a stored document and no [$set] of the update route
    names. *)
Definition identity (d : DocumentModel) : string * datetime * option string * bool :=
  (doc_id d, doc_created_at d, doc_template_id d, doc_is_public d).

Definition identities (w : World) : list (string * datetime * option string * bool) :=
  map identity (documents w).

(** The ids stored, with the number of [uuid4] draws made so far. *)
Definition stored_ids (w : World) : list string * nat :=
  (map doc_id (documents w), uuids w).

(** The stored ids are pairwise distinct draws of [uuid4]. *)
Definition ids_drawn (s : list string * nat) : Prop :=
  NoDup (fst s)
  /\ Forall (fun i => exists k, k < snd s /\ i = uuid4 k) (fst s).

Definition keeps_ids_drawn (before after : list string * nat) : Prop :=
  ids_drawn before -> ids_drawn after.

(** Three creations with a deletion in between. *)
Definition busy_morning : list Event :=
  [ POST_documents (DocumentCreate_init "First" None None None);
    POST_documents (DocumentCreate_init "Second" None None None);
    DELETE_document "u";
    POST_documents (DocumentCreate_init "Third" None None None) ].

(** ** Properties *)

Section Keeps.

Context {X : Type} (R : X -> X -> Prop) {R_pre : RelationClasses.PreOrder R}.
Variable proj : World -> X.

Lemma keeps_ret {A : Type} (a : A) : keeps R proj (ret a).
Proof. intros w. simpl. reflexivity. Qed.

Lemma keeps_raise {A : Type} (e : Exception) : keeps R proj (@raise A e).
Proof. intros w. simpl. reflexivity. Qed.

Lemma keeps_bind {A B : Type} (m : M A) (k : A -> M B) :
  keeps R proj m -> (forall a, keeps R proj (k a)) -> keeps R proj (bind m k).
Proof.
  intros Hm Hk w. unfold bind. specialize (Hm w).
  destruct (m w) as [[e | a] w1]; simpl in *; [exact Hm |].
  etransitivity; [exact Hm | apply Hk].
Qed.

Lemma keeps_try_except {A : Type} (body : M A) (handler : Exception -> M A) :
  keeps R proj body -> (forall e, keeps R proj (handler e)) ->
  keeps R proj (try_except body handler).
Proof.
  intros Hb Hh w. unfold try_except. specialize (Hb w).
  destruct (body w) as [[e | a] w1]; simpl in *; [| exact Hb].
  etransitivity; [exact Hb | apply Hh].
Qed.

Lemma keeps_for_each {A : Type} (xs : list A) (body : A -> M unit) :
  (forall x, keeps R proj (body x)) -> keeps R proj (for_each xs body).
Proof.
  intros Hb. induction xs as [| x rest IH]; simpl.
  - apply keeps_ret.
  - apply keeps_bind; [apply Hb | intros _; exact IH].
Qed.

Lemma keeps_comprehension {A B : Type} (f : A -> M B) (xs : list A) :
  (forall x, keeps R proj (f x)) -> keeps R proj (comprehension f xs).
Proof.
  intros Hf. induction xs as [| x rest IH]; simpl.
  - apply keeps_ret.
  - apply keeps_bind; [apply Hf | intros y].
    apply keeps_bind; [exact IH | intros ys; apply keeps_ret].
Qed.

Lemma keeps_fmap {A B : Type} (f : A -> B) (m : M A) :
  keeps R proj m -> keeps R proj (fmap f m).
Proof.
  intros Hm. unfold fmap. apply keeps_bind; [exact Hm | intros a; apply keeps_ret].
Qed.

Lemma keeps_if {A : Type} (b : bool) (m1 m2 : M A) :
  keeps R proj m1 -> keeps R proj m2 -> keeps R proj (if b then m1 else m2).
Proof. destruct b; auto. Qed.

(** A state change that leaves [proj] alone. *)
Lemma keeps_frame {A : Type} (m : M A) :
  (forall w, proj (snd (m w)) = proj w) -> keeps R proj m.
Proof. intros H w. rewrite H. reflexivity. Qed.

End Keeps.

Create HintDb frame discriminated.

(** Unfolds the routes down to driver operations and primitive steps. *)
Ltac open_routes :=
  unfold lifespan_startup, connect_to_mongo, create_indexes, initialize_templates,
    health_check, create_document, get_documents, get_document, update_document,
    update_document_in, delete_document, get_templates, get_template, chat_with_ai,
    get_template_categories, insert_builtin, internal_error, reraise_http,
    DocumentModel_init, ChatMessage_init, TemplateModel_init.

(** A driver operation or primitive step that leaves the component
    alone, by cases on what the store answers. *)
Ltac frame_leaf :=
  apply keeps_frame; try typeclasses eauto; intros ?w;
  unfold create_index, insert_one_document, insert_one_template,
    insert_one_chat_message, find_one_document, find_one_template,
    update_one_document, delete_one_document, count_documents_builtin,
    find_templates, find_documents, bind,
    round_trip, fresh_uuid, now, logger, load_global, ret, raise;
  repeat match goal with
         | |- context [bson_error ?m] => destruct (bson_error m)
         | |- context [driver_error ?n] => destruct (driver_error n)
         | |- context [id_conflict ?c ?i ?w] => destruct (id_conflict c i w)
         | |- context [update_first ?i ?f ?d] => destruct (update_first i f d)
         | |- context [delete_first ?i ?d] => destruct (delete_first i d)
         | |- context [cursor_page ?d ?s ?l] => destruct (cursor_page d s l)
         | |- context [match find ?f ?l with _ => _ end] => destruct (find f l)
         | |- context [if ?b then _ else _] => destruct b
         end;
  reflexivity.

(** Walks the binds, handlers and loops of a coroutine down to its
    driver operations. *)
Ltac frame_step :=
  lazymatch goal with
  | |- RelationClasses.PreOrder _ => typeclasses eauto
  | |- forall _, _ => intro
  | |- keeps _ _ (ret _) => apply keeps_ret
  | |- keeps _ _ (raise _) => apply keeps_raise
  | |- keeps _ _ (fmap _ _) => apply keeps_fmap
  | |- keeps _ _ (try_except _ _) => apply keeps_try_except
  | |- keeps _ _ (bind _ _) => apply keeps_bind
  | |- keeps _ _ (for_each _ _) => apply keeps_for_each
  | |- keeps _ _ (comprehension _ _) => apply keeps_comprehension
  | |- keeps _ _ (match ?x with _ => _ end) => destruct x
  | |- keeps _ _ _ =>
      first [ solve [auto 1 with frame nocore] | frame_leaf | progress open_routes ]
  end.

Ltac frame := repeat frame_step.

#[local] Arguments String.append : simpl never.

Lemma round_trip_ok (w : World) :
  driver_error (calls w) = None ->
  round_trip w = (inr tt, set_calls (S (calls w)) w).
Proof. intros H. unfold round_trip. rewrite H. reflexivity. Qed.

Lemma round_trip_err (w : World) (msg : string) :
  driver_error (calls w) = Some msg ->
  round_trip w = (inl (PyMongoError msg), set_calls (S (calls w)) w).
Proof. intros H. unfold round_trip. rewrite H. reflexivity. Qed.

(** Rewrites the next round trip with the oracle fact [H]. *)
Ltac trip H :=
  match goal with
  | |- context [round_trip ?w] =>
      first [ rewrite (round_trip_ok w H) | rewrite (round_trip_err w _ H) ]
  end.

(** Rewrites the next uniqueness check with the fact [H] about the
    state before the route started. *)
Ltac conflict H :=
  match type of H with
  | id_conflict ?c ?i ?w = _ =>
      match goal with
      | |- context [id_conflict ?c' ?i' ?w'] =>
          change (id_conflict c' i' w') with (id_conflict c i w); rewrite H
      end
  end.

(** *** Facts about the collection primitives *)

Lemma apply_sets_id (fs : list SetField) (d : DocumentModel) :
  doc_id (apply_sets fs d) = doc_id d.
Proof.
  unfold apply_sets. revert d.
  induction fs as [| f fs IH]; intros d; simpl; [reflexivity |].
  rewrite IH. destruct f; reflexivity.
Qed.

Lemma apply_sets_is_public (fs : list SetField) (d : DocumentModel) :
  doc_is_public (apply_sets fs d) = doc_is_public d.
Proof.
  unfold apply_sets. revert d.
  induction fs as [| f fs IH]; intros d; simpl; [reflexivity |].
  rewrite IH. destruct f; reflexivity.
Qed.

Lemma update_first_missing (id : string) (fs : list SetField) (ds : list DocumentModel) :
  find (fun d => doc_id d =? id) ds = None -> update_first id fs ds = (0, ds).
Proof.
  induction ds as [| d rest IH]; simpl; [reflexivity |].
  destruct (doc_id d =? id); [discriminate |].
  intros H. rewrite (IH H). reflexivity.
Qed.

Lemma update_first_found (id : string) (fs : list SetField) (ds : list DocumentModel)
    (d : DocumentModel) :
  find (fun d => doc_id d =? id) ds = Some d ->
  fst (update_first id fs ds) = 1
  /\ find (fun d => doc_id d =? id) (snd (update_first id fs ds)) = Some (apply_sets fs d).
Proof.
  induction ds as [| d0 rest IH]; simpl; [discriminate |].
  destruct (doc_id d0 =? id) eqn:E.
  - intros H. injection H as <-. simpl. rewrite apply_sets_id, E. auto.
  - intros H. destruct (IH H) as [H1 H2].
    destruct (update_first id fs rest) as [n rest']. simpl in *.
    rewrite E. auto.
Qed.

Lemma delete_first_missing (id : string) (ds : list DocumentModel) :
  find (fun d => doc_id d =? id) ds = None -> delete_first id ds = (0, ds).
Proof.
  induction ds as [| d rest IH]; simpl; [reflexivity |].
  destruct (doc_id d =? id); [discriminate |].
  intros H. rewrite (IH H). reflexivity.
Qed.

Lemma context_or_empty_spec (context : option Dict) :
  context_or_empty context = match context with Some c => c | None => [] end.
Proof. destruct context as [[| kv rest] |]; reflexivity. Qed.

(** *** PUT and DELETE on documents *)

(** C1.  [PUT /api/documents/{id}] never reaches the store: the name
    [datetime] of line 351 is not bound in [server.py], the [NameError]
    is caught by the generic handler, and every request, whatever the id
    and the fields sent, is answered 500 with the store left as it was;
    only the error line is logged.  No field is applied, [updated_at] is
    not refreshed and no record is returned. *)
Theorem update_document_always_500
    (w : World) (document_id : string) (update_data : DocumentUpdate) :
  update_document document_id update_data w =
  (inl (HTTPException 500 "Failed to update document"),
   set_log (log w ++ [(ERROR, "Error updating document " ++ document_id
                              ++ ": name 'datetime' is not defined")]) w).
Proof. reflexivity. Qed.

(** With [datetime] bound in the namespace, the same body does what the
    route documents: the non-null fields and a fresh [updated_at] are
    written to the first match and the record is returned as the store
    gives it back. *)
Lemma update_document_in_bound
    (globals : list string) (w : World) (document_id : string)
    (update_data : DocumentUpdate) (d : DocumentModel) :
  existsb (String.eqb "datetime") globals = true ->
  driver_error (calls w) = None ->
  driver_error (S (calls w)) = None ->
  find (fun d => doc_id d =? document_id) (documents w) = Some d ->
  let fs := (update_dict_of update_data ++ [set_updated_at (utcnow (ticks w))])%list in
  let r := update_document_in globals document_id update_data w in
  fst r = inr (read_back (apply_sets fs d))
  /\ documents (snd r) = snd (update_first document_id fs (documents w)).
Proof.
  intros Hg H0 H1 Hd fs r. subst r.
  unfold update_document_in, try_except, bind, load_global.
  rewrite Hg. unfold ret, now, update_one_document, bind.
  trip H0. simpl. fold fs.
  destruct (update_first_found document_id fs _ d Hd) as [Hn Hf].
  destruct (update_first document_id fs (documents w)) as [n ds] eqn:E.
  simpl in Hn, Hf. subst n. simpl.
  unfold find_one_document, bind. trip H1. simpl.
  rewrite Hf. simpl. auto.
Qed.

(** C2.  For an id that matches no stored document, [DELETE] answers 404
    when the store call goes through, and leaves the documents as they
    were; [PUT] leaves them as they were too but answers 500, not 404:
    the [NameError] of line 351 is raised before [update_one] is sent,
    so [matched_count] is never looked at. *)
Theorem missing_document_put_500_delete_404
    (w : World) (document_id : string) (update_data : DocumentUpdate) :
  find (fun d => doc_id d =? document_id) (documents w) = None ->
  (fst (update_document document_id update_data w)
     = inl (HTTPException 500 "Failed to update document")
   /\ documents (snd (update_document document_id update_data w)) = documents w)
  /\ (driver_error (calls w) = None ->
      fst (delete_document document_id w) = inl (HTTPException 404 "Document not found"))
  /\ documents (snd (delete_document document_id w)) = documents w.
Proof.
  intros Hmiss. split; [split; reflexivity |].
  unfold delete_document, try_except, bind, delete_one_document, bind, round_trip.
  destruct (driver_error (calls w)); simpl.
  - split; [discriminate | reflexivity].
  - rewrite (delete_first_missing _ _ Hmiss). simpl. split; reflexivity.
Qed.

(** *** The chat placeholder *)

Lemma bson_error_none (m : ChatMessage) :
  ints_fit (PyDict (msg_context m)) = true ->
  encode_error m = None ->
  bson_error m = None.
Proof. intros Hfit Henc. unfold bson_error. rewrite Hfit, Henc. reflexivity. Qed.

(** C4, amended.  Whatever the document id, the message and the
    context of the request, provided the record can be encoded (every
    integer of the context fits in 8 bytes and the encoder refuses
    nothing else) and the store takes the insert, [POST /api/chat]
    answers the one fixed mapping, an informational [message] and three
    [suggestions], after appending one [ChatMessage] that holds the
    request's document id and message, the [str()] of the fixed mapping,
    and the supplied context ([{}] when there is none). *)
Theorem chat_with_ai_fixed_reply (w : World) (chat_request : ChatRequest) :
  ints_fit (PyDict (context_or_empty (cr_context chat_request))) = true ->
  encode_error (chat_record chat_request w) = None ->
  driver_error (calls w) = None ->
  id_conflict c_chat_messages (uuid4 (uuids w)) w = false ->
  let r := chat_with_ai chat_request w in
  fst r = inr chat_response
  /\ chat_response =
       PyDict [ ("message", PyStr "AI integration coming soon! This is a placeholder response.");
                ("suggestions",
                 PyList [ PyStr "Try adding some mathematical equations with \begin{equation}";
                          PyStr "Consider using \section{} to organize your content";
                          PyStr "Use \textbf{} for bold text and \textit{} for italic text" ]) ]
  /\ chat_messages (snd r) =
       (chat_messages w ++
        [ {| msg_id := uuid4 (uuids w);
             msg_document_id := cr_document_id chat_request;
             msg_message := cr_message chat_request;
             msg_response := "{'message': 'AI integration coming soon! This is a placeholder response.', 'suggestions': ['Try adding some mathematical equations with \\begin{equation}', 'Consider using \\section{} to organize your content', 'Use \\textbf{} for bold text and \\textit{} for italic text']}";
             msg_timestamp := utcnow (ticks w);
             msg_context := match cr_context chat_request with
                            | Some c => c
                            | None => []
                            end |} ])%list.
Proof.
  intros Hfit Henc Hcall Hfree r. subst r.
  unfold chat_with_ai, try_except, bind, ChatMessage_init, fresh_uuid, now,
    insert_one_chat_message, bind, ret.
  change (bson_error _) with (bson_error (chat_record chat_request w)).
  rewrite (bson_error_none (chat_record chat_request w) Hfit Henc). unfold bind.
  trip Hcall. conflict Hfree. simpl.
  rewrite context_or_empty_spec.
  repeat split.
Qed.

(** A record that cannot be encoded is not stored: the route answers
    500 and persists nothing. *)
Lemma chat_with_ai_not_encoded (w : World) (chat_request : ChatRequest) (e : Exception) :
  bson_error (chat_record chat_request w) = Some e ->
  fst (chat_with_ai chat_request w)
    = inl (HTTPException 500 "Chat service temporarily unavailable")
  /\ chat_messages (snd (chat_with_ai chat_request w)) = chat_messages w.
Proof.
  intros Hbad.
  unfold chat_with_ai, try_except, bind, ChatMessage_init, fresh_uuid, now,
    insert_one_chat_message, bind, ret.
  change (bson_error _) with (bson_error (chat_record chat_request w)).
  rewrite Hbad. repeat split.
Qed.

(** When the store refuses the insert nothing is persisted and the
    route answers 500. *)
Lemma chat_with_ai_store_down (w : World) (chat_request : ChatRequest) (msg : string) :
  driver_error (calls w) = Some msg ->
  fst (chat_with_ai chat_request w)
    = inl (HTTPException 500 "Chat service temporarily unavailable")
  /\ chat_messages (snd (chat_with_ai chat_request w)) = chat_messages w.
Proof.
  intros Hcall.
  destruct (bson_error (chat_record chat_request w)) as [e |] eqn:Henc.
  - exact (chat_with_ai_not_encoded w chat_request e Henc).
  - unfold chat_with_ai, try_except, bind, ChatMessage_init, fresh_uuid, now,
      insert_one_chat_message, bind, ret.
    change (bson_error _) with (bson_error (chat_record chat_request w)).
    rewrite Henc. unfold bind. trip Hcall. split; reflexivity.
Qed.

(** *** Listing templates *)

Lemma string_leb_iff (a b : string) :
  (a <=? b) = true <-> String_as_OT.lt a b \/ a = b.
Proof.
  unfold String.leb.
  destruct (a ?= b) eqn:E.
  - apply String_as_OT.cmp_eq in E. tauto.
  - apply String_as_OT.cmp_lt in E. tauto.
  - split; [discriminate |].
    intros [Hlt | Heq].
    + apply String_as_OT.cmp_lt in Hlt. unfold String_as_OT.cmp in Hlt. congruence.
    + apply String_as_OT.cmp_eq in Heq. unfold String_as_OT.cmp in Heq. congruence.
Qed.

Lemma string_leb_trans (a b c : string) :
  (a <=? b) = true -> (b <=? c) = true -> (a <=? c) = true.
Proof.
  rewrite !string_leb_iff.
  intros [Hab | ->] [Hbc | ->]; auto.
  left. eapply String_as_OT.lt_trans; eassumption.
Qed.

Lemma sort_by_name_sorted (ts : list TemplateDoc) :
  StronglySorted (fun a b => (td_name a <=? td_name b) = true) (sort_by_name ts).
Proof.
  apply (TemplateSort.StronglySorted_sort ts).
  intros a b c. apply string_leb_trans.
Qed.

Lemma sort_by_name_perm (ts : list TemplateDoc) : Permutation (sort_by_name ts) ts.
Proof. symmetry. apply TemplateSort.Permuted_sort. Qed.

Lemma TemplateModel_init_shows (t : TemplateDoc) (w : World) :
  exists m w', TemplateModel_init t w = (inr m, w') /\ shows t m.
Proof.
  unfold TemplateModel_init, bind.
  destruct (td_created_at t) as [c |] eqn:E; simpl; eexists; eexists;
    (split; [reflexivity |]); unfold shows; simpl;
    repeat split; intros c' Hc'; congruence.
Qed.

Lemma comprehension_shows (ts : list TemplateDoc) (w : World) :
  exists ms w', comprehension TemplateModel_init ts w = (inr ms, w') /\ Forall2 shows ts ms.
Proof.
  revert w. induction ts as [| t rest IH]; intros w; simpl.
  - exists [], w. split; [reflexivity | constructor].
  - unfold bind.
    destruct (TemplateModel_init_shows t w) as (m & w1 & -> & Hm).
    destruct (IH w1) as (ms & w2 & -> & Hms).
    exists (m :: ms), w2. split; [reflexivity | constructor; assumption].
Qed.

Lemma shows_sorted (ts : list TemplateDoc) (ms : list TemplateModel) :
  Forall2 shows ts ms ->
  StronglySorted (fun a b => (td_name a <=? td_name b) = true) ts ->
  StronglySorted (fun a b => (tpl_name a <=? tpl_name b) = true) ms.
Proof.
  induction 1 as [| t m ts ms Htm Hrest IH]; intros Hs; [constructor |].
  inversion Hs as [| ? ? Hs' Hall]; subst.
  constructor; [auto |].
  clear IH Hs Hs'. induction Hrest as [| t' m' ts' ms' Htm' _ IH']; [constructor |].
  inversion Hall; subst. constructor; [| auto].
  destruct Htm as (_ & -> & _), Htm' as (_ & -> & _). assumption.
Qed.

Lemma get_templates_spec (category : option string) (w : World) :
  driver_error (calls w) = None ->
  exists ms,
    fst (get_templates category w) = inr ms
    /\ Forall2 shows (sort_by_name (selected (templates_query category) (templates w))) ms.
Proof.
  intros Hcall.
  unfold get_templates, try_except, bind, find_templates, bind.
  trip Hcall.
  match goal with
  | |- context [comprehension TemplateModel_init ?ts ?w1] =>
      destruct (comprehension_shows ts w1) as (ms & w2 & -> & Hms)
  end.
  exists ms. split; [reflexivity | exact Hms].
Qed.

(** C7, amended.  When the store call goes through, [GET /api/templates]
    with a non-empty category returns exactly the stored templates whose
    category is that string, and with no category all of them; either
    way the whole selection, ordered by name ascending. *)
Theorem get_templates_by_category (w : World) (category : option string) :
  driver_error (calls w) = None ->
  category <> Some "" ->
  exists (ts : list TemplateDoc) (ms : list TemplateModel),
    fst (get_templates category w) = inr ms
    /\ Forall2 shows ts ms
    /\ Permutation ts (match category with
                       | Some c => filter (fun t => td_category t =? c) (templates w)
                       | None => templates w
                       end)
    /\ StronglySorted (fun a b => (tpl_name a <=? tpl_name b) = true) ms.
Proof.
  intros Hcall Hne.
  destruct (get_templates_spec category w Hcall) as (ms & Hr & Hms).
  eexists; exists ms. split; [exact Hr |]. split; [exact Hms |]. split.
  - rewrite sort_by_name_perm.
    destruct category as [c |]; simpl; [| reflexivity].
    unfold truthy_str. destruct (c =? "") eqn:E; simpl; [| reflexivity].
    apply String.eqb_eq in E. subst c. contradiction.
  - eapply shows_sorted; [exact Hms | apply sort_by_name_sorted].
Qed.

(** C9.  An empty [category] parameter is the absent parameter: the
    route runs the same way, sends no filter, and returns every stored
    template, whatever its category. *)
Theorem get_templates_empty_category (w : World) :
  driver_error (calls w) = None ->
  get_templates (Some "") w = get_templates None w
  /\ exists (ts : list TemplateDoc) (ms : list TemplateModel),
       fst (get_templates (Some "") w) = inr ms
       /\ Forall2 shows ts ms
       /\ Permutation ts (templates w).
Proof.
  intros Hcall. split; [reflexivity |].
  destruct (get_templates_spec (Some "") w Hcall) as (ms & Hr & Hms).
  eexists; exists ms. split; [exact Hr |]. split; [exact Hms |].
  apply sort_by_name_perm.
Qed.

(** *** Index creation *)

Lemma create_index_cases (ix : Index) (w : World) :
  run_statement ix w
    = (inr tt, set_indexes (add_index (indexes w) ix) (set_calls (S (calls w)) w))
  \/ exists e, run_statement ix w = (inl e, set_calls (S (calls w)) w).
Proof.
  unfold run_statement, create_index, bind, round_trip, add_index.
  destruct (driver_error (calls w)) as [msg |]; [right; eexists; reflexivity |].
  cbn [indexes set_calls].
  destruct (find (index_on (ix_collection ix) (ix_key ix)) (indexes w)) as [ix' |].
  - destruct (Bool.eqb (ix_unique ix') (ix_unique ix));
      [left; reflexivity | right; eexists; reflexivity].
  - match goal with |- context [if ?b then _ else _] => destruct b end;
      [right; eexists; reflexivity | left; destruct ix; reflexivity].
Qed.

(** A run of statements stops at the first one that fails: the [k]
    statements before it went through, it was the last one sent. *)
Lemma statements_prefix (stmts : list Index) (w : World) :
  exists k,
    k <= length stmts
    /\ indexes (snd (for_each stmts run_statement w))
         = fold_left add_index (firstn k stmts) (indexes w)
    /\ log (snd (for_each stmts run_statement w)) = log w
    /\ ((k = length stmts
         /\ fst (for_each stmts run_statement w) = inr tt
         /\ calls (snd (for_each stmts run_statement w)) = calls w + k)
        \/ (k < length stmts
            /\ (exists e, fst (for_each stmts run_statement w) = inl e)
            /\ calls (snd (for_each stmts run_statement w)) = calls w + S k)).
Proof.
  revert w. induction stmts as [| ix rest IH]; intros w.
  - exists 0. simpl. split; [lia |]. split; [reflexivity |]. split; [reflexivity |].
    left. repeat split; lia.
  - cbn [for_each]. unfold bind.
    destruct (create_index_cases ix w) as [-> | [e ->]].
    + destruct (IH (set_indexes (add_index (indexes w) ix) (set_calls (S (calls w)) w)))
        as (k & Hk & Hix & Hlog & Hcases).
      exists (S k). cbn [length firstn fold_left].
      split; [lia |]. split; [exact Hix |]. split; [exact Hlog |].
      destruct Hcases as [(-> & Hr & Hc) | (Hlt & Hr & Hc)]; [left | right];
        (split; [lia |]); (split; [exact Hr |]); rewrite Hc; cbn [calls set_indexes set_calls]; lia.
    + exists 0. cbn. split; [lia |]. split; [reflexivity |]. split; [reflexivity |].
      right. split; [lia |]. split; [eexists; reflexivity | lia].
Qed.

Lemma create_indexes_unfold (w : World) :
  create_indexes w
    = try_except
        (for_each index_statements run_statement ;;
         logger INFO "Database indexes created successfully")
        (fun e => logger WARNING ("Failed to create some indexes: " ++ exc_str e)) w.
Proof.
  unfold create_indexes, try_except, index_statements, for_each, run_statement, bind.
  cbn [ix_collection ix_key ix_unique].
  repeat match goal with
         | |- context [create_index ?c ?k ?u ?w0] =>
             destruct (create_index c k u w0) as [[? | []] ?]; try reflexivity
         end.
Qed.

(** C8, amended.  [create_indexes] never raises.  The eight statements
    run in program order under one handler: those before the first
    failure go through and their indexes stay, the failure is logged as
    one warning, and no later statement is sent; with no failure all
    eight are sent and the success line is logged. *)
Theorem create_indexes_never_raises (w : World) :
  fst (create_indexes w) = inr tt
  /\ exists k,
       k <= 8
       /\ indexes (snd (create_indexes w))
            = fold_left add_index (firstn k index_statements) (indexes w)
       /\ calls (snd (create_indexes w)) = calls w + Nat.min (S k) 8
       /\ (k = 8 ->
           log (snd (create_indexes w))
             = (log w ++ [(INFO, "Database indexes created successfully")])%list)
       /\ (k < 8 ->
           exists e,
             log (snd (create_indexes w))
               = (log w ++ [(WARNING, ("Failed to create some indexes: " ++ exc_str e)%string)])%list).
Proof.
  rewrite create_indexes_unfold. unfold try_except, bind.
  destruct (statements_prefix index_statements w) as (k & Hk & Hix & Hlog & Hcases).
  destruct (for_each index_statements run_statement w) as [[e | []] w1].
  - cbn [fst snd] in *. split; [reflexivity |].
    destruct Hcases as [(_ & Hr & _) | (Hlt & _ & Hc)]; [discriminate |].
    exists k. cbn [length index_statements] in *.
    unfold logger. cbn [snd indexes calls log set_log].
    rewrite Hix, Hc, Hlog. repeat split; try lia.
    intros _. exists e. reflexivity.
  - cbn [fst snd] in *. split; [reflexivity |].
    destruct Hcases as [(-> & _ & Hc) | (_ & [e He] & _)]; [| discriminate].
    exists 8. cbn [length index_statements] in *.
    unfold logger. cbn [snd indexes calls log set_log].
    rewrite Hix, Hc, Hlog. repeat split; try lia.
Qed.

(** *** Seeding the built-in templates *)

Lemma existsb_eqb_In (x : string) (l : list string) :
  existsb (String.eqb x) l = true <-> In x l.
Proof.
  rewrite existsb_exists. split.
  - intros (y & Hy & E). apply String.eqb_eq in E. subst y. exact Hy.
  - intros H. exists x. split; [exact H | apply String.eqb_refl].
Qed.

Lemma has_duplicates_NoDup (l : list string) : has_duplicates l = false -> NoDup l.
Proof.
  induction l as [| x rest IH]; simpl; intros H; [constructor |].
  apply orb_false_iff in H. destruct H as [Hx Hrest].
  constructor; [| auto].
  intros Hin. apply existsb_eqb_In in Hin. congruence.
Qed.

Lemma builtin_ids_NoDup : NoDup (map td_id builtin_templates).
Proof. apply has_duplicates_NoDup. vm_compute. reflexivity. Qed.

Lemma id_conflict_grown (id : string) (w w0 : World) (ins : list TemplateDoc) :
  indexes w = indexes w0 ->
  templates w = (templates w0 ++ ins)%list ->
  ~ In id (map td_id ins) ->
  id_conflict c_templates id w = id_conflict c_templates id w0.
Proof.
  intros Hix Hts Hnew.
  unfold id_conflict, has_unique_index, ids_of. rewrite Hix, Hts.
  rewrite map_app, existsb_app.
  destruct (existsb (String.eqb id) (map td_id ins)) eqn:E.
  - apply existsb_eqb_In in E. contradiction.
  - rewrite orb_false_r. reflexivity.
Qed.

Lemma insert_builtin_spec (t : TemplateDoc) (w : World) :
  if accepted (calls w) w t then
    insert_builtin t w
      = (inr tt,
         set_log (log w ++ [(INFO, "Inserted template: " ++ td_name t)])
           (set_templates (templates w ++ [t]) (set_calls (S (calls w)) w)))
  else
    exists e,
      insert_builtin t w
        = (inr tt,
           set_log (log w ++ [(ERROR, "Failed to insert template " ++ td_name t
                                      ++ ": " ++ exc_str e)])
             (set_calls (S (calls w)) w)).
Proof.
  unfold accepted, insert_builtin, try_except, bind, insert_one_template, bind, round_trip.
  destruct (driver_error (calls w)) as [msg |]; [eexists; reflexivity |].
  change (id_conflict c_templates (td_id t) (set_calls (S (calls w)) w))
    with (id_conflict c_templates (td_id t) w).
  destruct (id_conflict c_templates (td_id t) w); cbn [negb];
    [exists (DuplicateKeyError "templates" (td_id t)) |]; reflexivity.
Qed.

(** The loop of [initialize_templates] over templates with distinct
    ids: it never raises, every template costs one round trip and one
    log line, and exactly the accepted ones are appended, in order. *)
Lemma seed_loop (ts : list TemplateDoc) (w0 : World) :
  NoDup (map td_id ts) ->
  forall (w : World) (ins : list TemplateDoc),
    indexes w = indexes w0 ->
    templates w = (templates w0 ++ ins)%list ->
    (forall t, In t ts -> ~ In (td_id t) (map td_id ins)) ->
    let r := for_each ts insert_builtin w in
    fst r = inr tt
    /\ calls (snd r) = calls w + length ts
    /\ templates (snd r) = (templates w ++ accepted_from (calls w) w0 ts)%list
    /\ indexes (snd r) = indexes w
    /\ documents (snd r) = documents w
    /\ chat_messages (snd r) = chat_messages w
    /\ exists lines, log (snd r) = (log w ++ lines)%list /\ Forall2 seed_line ts lines.
Proof.
  induction ts as [| t rest IH]; intros Hnd w ins Hix Hts Hnew; cbn zeta.
  - simpl. rewrite Nat.add_0_r, app_nil_r. repeat split.
    exists []. rewrite app_nil_r. split; [reflexivity | constructor].
  - inversion Hnd as [| ? ? Ht Hrest]; subst.
    cbn [for_each accepted_from length]. unfold bind.
    assert (Hacc : accepted (calls w) w t = accepted (calls w) w0 t).
    { unfold accepted. destruct (driver_error (calls w)); [reflexivity |].
      f_equal. apply (id_conflict_grown _ _ _ ins Hix Hts).
      apply Hnew. left. reflexivity. }
    pose proof (insert_builtin_spec t w) as Hstep. rewrite Hacc in Hstep.
    destruct (accepted (calls w) w0 t).
    + rewrite Hstep.
      match goal with |- context [for_each rest insert_builtin ?w1] =>
        destruct (IH Hrest w1 (ins ++ [t])%list) as (Hr & Hc & Hs & Hi & Hd & Hm & lines & Hl & Hlines)
      end.
      * exact Hix.
      * cbn [templates set_log set_templates]. rewrite Hts, app_assoc. reflexivity.
      * intros t' Ht' Hin. rewrite map_app in Hin. apply in_app_or in Hin.
        destruct Hin as [Hin | [Heq | []]].
        -- apply (Hnew t'); [right; exact Ht' | exact Hin].
        -- apply Ht. rewrite Heq. apply in_map. exact Ht'.
      * rewrite Hr, Hc, Hs, Hi, Hd, Hm, Hl. cbn [calls templates indexes documents
          chat_messages log set_log set_templates set_calls].
        repeat split; try lia.
        -- rewrite <- app_assoc. reflexivity.
        -- eexists. rewrite <- app_assoc. split; [reflexivity |].
           constructor; [left; reflexivity | exact Hlines].
    + destruct Hstep as [e Hstep]. rewrite Hstep.
      match goal with |- context [for_each rest insert_builtin ?w1] =>
        destruct (IH Hrest w1 ins) as (Hr & Hc & Hs & Hi & Hd & Hm & lines & Hl & Hlines)
      end.
      * exact Hix.
      * exact Hts.
      * intros t' Ht'. apply Hnew. right. exact Ht'.
      * rewrite Hr, Hc, Hs, Hi, Hd, Hm, Hl. cbn [calls templates indexes documents
          chat_messages log set_log set_templates set_calls].
        repeat split; try lia.
        eexists. rewrite <- app_assoc. split; [reflexivity |].
        constructor; [right; exists e; reflexivity | exact Hlines].
Qed.

Lemma accepted_from_length (n : nat) (w0 : World) (ts : list TemplateDoc) :
  length (accepted_from n w0 ts) <= length ts.
Proof.
  revert n. induction ts as [| t rest IH]; intros n; simpl; [lia |].
  rewrite length_app. specialize (IH (S n)).
  destruct (accepted n w0 t); simpl; lia.
Qed.

(** When every insert is accepted the whole list goes in. *)
Lemma accepted_from_all (n : nat) (w0 : World) (ts : list TemplateDoc) :
  (forall i t, nth_error ts i = Some t -> accepted (n + i) w0 t = true) ->
  accepted_from n w0 ts = ts.
Proof.
  revert n. induction ts as [| t rest IH]; intros n H; simpl; [reflexivity |].
  rewrite <- (Nat.add_0_r n) at 1. rewrite (H 0 t eq_refl). simpl. f_equal.
  apply IH. intros i t' Hi. rewrite Nat.add_succ_comm. apply (H (S i)). exact Hi.
Qed.

Lemma count_builtin_app (a b : list TemplateDoc) :
  count_builtin (a ++ b) = count_builtin a + count_builtin b.
Proof. unfold count_builtin. rewrite filter_app, length_app. reflexivity. Qed.

Lemma count_builtin_le_length (a : list TemplateDoc) : count_builtin a <= length a.
Proof. apply filter_length_le. Qed.

Lemma initialize_templates_seeds (w : World) :
  driver_error (calls w) = None ->
  count_builtin (templates w) = 0 ->
  let r := initialize_templates w in
  fst r = inr tt
  /\ calls (snd r) = calls w + 6
  /\ templates (snd r)
       = (templates w ++ accepted_from (S (calls w)) w builtin_templates)%list
  /\ exists lines,
       log (snd r)
         = (log w ++ lines ++ [(INFO, "Built-in templates initialization completed")])%list
       /\ Forall2 seed_line builtin_templates lines.
Proof.
  intros Hcall Hnone r. subst r.
  unfold initialize_templates, bind, count_documents_builtin, bind.
  trip Hcall. cbn [templates set_calls]. rewrite Hnone. cbn [Nat.ltb Nat.leb].
  destruct (seed_loop builtin_templates w builtin_ids_NoDup
              (set_calls (S (calls w)) w) [])
    as (Hr & Hc & Hs & _ & _ & _ & lines & Hl & Hlines).
  - reflexivity.
  - cbn [templates set_calls]. rewrite app_nil_r. reflexivity.
  - intros t _ [].
  - destruct (for_each builtin_templates insert_builtin (set_calls (S (calls w)) w))
      as [[e | []] w1]; cbn [fst snd] in *; [discriminate |].
    unfold logger. cbn [fst snd calls templates log set_log].
    rewrite Hc, Hs, Hl. cbn [calls templates log set_calls length builtin_templates].
    repeat split; try lia.
    exists lines. rewrite <- app_assoc. split; [reflexivity | exact Hlines].
Qed.

Lemma initialize_templates_skips (w : World) :
  0 < count_builtin (templates w) ->
  templates (snd (initialize_templates w)) = templates w.
Proof.
  intros Hpos.
  unfold initialize_templates, bind, count_documents_builtin, bind, round_trip.
  destruct (driver_error (calls w)); [reflexivity |].
  cbn [templates set_calls].
  apply Nat.ltb_lt in Hpos. rewrite Hpos. reflexivity.
Qed.

Lemma initialize_templates_down (w : World) (msg : string) :
  driver_error (calls w) = Some msg ->
  initialize_templates w = (inl (PyMongoError msg), set_calls (S (calls w)) w).
Proof.
  intros Hcall.
  unfold initialize_templates, bind, count_documents_builtin, bind.
  trip Hcall. reflexivity.
Qed.

Lemma initialize_templates_bound (w : World) :
  count_builtin (templates (snd (initialize_templates w)))
    <= Nat.max (count_builtin (templates w)) 5.
Proof.
  destruct (driver_error (calls w)) as [msg |] eqn:Hcall.
  - rewrite (initialize_templates_down w msg Hcall). cbn [snd templates set_calls]. lia.
  - destruct (count_builtin (templates w)) as [| n] eqn:Hcount.
    + destruct (initialize_templates_seeds w Hcall Hcount) as (_ & _ & Hs & _).
      rewrite Hs, count_builtin_app, Hcount.
      pose proof (count_builtin_le_length (accepted_from (S (calls w)) w builtin_templates)).
      pose proof (accepted_from_length (S (calls w)) w builtin_templates).
      cbn [length builtin_templates] in *. lia.
    + rewrite initialize_templates_skips by lia. lia.
Qed.

(** C6.  With no builtin-flagged template in the store and the count
    answered, the seeder walks the fixed list of five templates
    (academic, business, presentation, academic, business, all flagged
    builtin) and never raises: each template costs exactly one insert
    round trip and one log line, whatever happened to the others, and
    the templates appended are exactly those whose own insert the store
    accepted, in list order; all five when every insert is accepted. *)
Theorem initialize_templates_inserts_each (w : World) :
  driver_error (calls w) = None ->
  count_builtin (templates w) = 0 ->
  let r := initialize_templates w in
  map td_category builtin_templates
    = ["academic"; "business"; "presentation"; "academic"; "business"]
  /\ Forall (fun t => td_is_builtin t = Some true) builtin_templates
  /\ fst r = inr tt
  /\ calls (snd r) = calls w + 1 + length builtin_templates
  /\ templates (snd r)
       = (templates w ++ accepted_from (S (calls w)) w builtin_templates)%list
  /\ (exists lines,
        log (snd r)
          = (log w ++ lines ++ [(INFO, "Built-in templates initialization completed")])%list
        /\ Forall2 seed_line builtin_templates lines)
  /\ ((forall i t, nth_error builtin_templates i = Some t ->
                   accepted (S (calls w) + i) w t = true) ->
      templates (snd r) = (templates w ++ builtin_templates)%list).
Proof.
  intros Hcall Hnone r.
  destruct (initialize_templates_seeds w Hcall Hnone) as (Hr & Hc & Hs & Hl).
  fold r in Hr, Hc, Hs, Hl.
  split; [reflexivity |].
  split; [repeat constructor |].
  split; [exact Hr |].
  split; [rewrite Hc; cbn [length builtin_templates]; lia |].
  split; [exact Hs |].
  split; [exact Hl |].
  intros Hall. rewrite Hs, accepted_from_all by exact Hall. reflexivity.
Qed.

(** *** Invariants of the service *)

#[local] Instance stays_private_PreOrder : RelationClasses.PreOrder stays_private.
Proof. split; [intros a H; exact H | intros a b c Hab Hbc H; auto]. Qed.

#[local] Instance seeded_at_most_PreOrder : RelationClasses.PreOrder seeded_at_most.
Proof.
  unfold seeded_at_most. split; [intros a; lia | intros a b c Hab Hbc; lia].
Qed.

Lemma connect_to_mongo_templates : keeps eq templates connect_to_mongo.
Proof. frame. Qed.

Lemma handle_templates (ev : Event) :
  ev <> Startup -> keeps eq templates (handle ev).
Proof. intros Hev. destruct ev; [contradiction | ..]; unfold handle; frame. Qed.

(** What moves nothing moves along every preorder. *)
Lemma keeps_eq_any {X A : Type} (R : X -> X -> Prop) {R_pre : RelationClasses.PreOrder R}
    (proj : World -> X) (m : M A) :
  keeps eq proj m -> keeps R proj m.
Proof. intros H w. rewrite <- (H w). reflexivity. Qed.

Lemma handle_seeded_at_most (ev : Event) : keeps seeded_at_most templates (handle ev).
Proof.
  destruct ev;
    try (apply keeps_eq_any; [typeclasses eauto | apply handle_templates; discriminate]).
  unfold handle, lifespan_startup.
  apply keeps_fmap; [typeclasses eauto |].
  apply keeps_bind; [typeclasses eauto | |].
  - apply keeps_eq_any; [typeclasses eauto | apply connect_to_mongo_templates].
  - intros _ w. apply initialize_templates_bound.
Qed.

Lemma run_keeps {X : Type} (R : X -> X -> Prop) {R_pre : RelationClasses.PreOrder R}
    (proj : World -> X) :
  (forall ev, keeps R proj (handle ev)) ->
  forall evs w, R (proj w) (proj (snd (run evs w))).
Proof.
  intros Hstep evs. induction evs as [| ev rest IH]; intros w; simpl; [reflexivity |].
  specialize (Hstep ev w).
  destruct (handle ev w) as [r w1]. specialize (IH w1).
  destruct (run rest w1) as [trace w2]. simpl in *.
  etransitivity; eassumption.
Qed.

Lemma seed_times_bound (n : nat) (w : World) :
  seeded_at_most (templates w) (templates (seed_times n w)).
Proof.
  unfold seed_times. induction n as [| n IH]; simpl; [reflexivity |].
  etransitivity; [exact IH | apply initialize_templates_bound].
Qed.

(** C3.  Seeding is idempotent.  A run of the seeder on a store that
    holds a builtin-flagged template leaves the templates exactly as
    they were; so from a store without templates, no number of seeder
    runs, and no sequence of startups and requests, ends with more than
    five builtin-flagged templates. *)
Theorem seeding_is_idempotent (w w0 : World) (n : nat) (evs : list Event) :
  0 < count_builtin (templates w) ->
  templates w0 = [] ->
  templates (snd (initialize_templates w)) = templates w
  /\ count_builtin (templates (seed_times n w0)) <= 5
  /\ count_builtin (templates (snd (run evs w0))) <= 5.
Proof.
  intros Hpos Hempty. split; [apply initialize_templates_skips; exact Hpos |].
  pose proof (seed_times_bound n w0) as Hn.
  pose proof (run_keeps seeded_at_most templates handle_seeded_at_most evs w0) as Hrun.
  unfold seeded_at_most in *. rewrite Hempty in *. simpl in *. lia.
Qed.

(** *** Documents created through the API *)

Lemma create_document_cases (document : DocumentCreate) (w : World) :
  let r := create_document document w in
  uuids (snd r) = S (uuids w)
  /\ ((driver_error (calls w) = None
       /\ id_conflict c_documents (uuid4 (uuids w)) w = false
       /\ fst r = inr (fresh_document document w)
       /\ documents (snd r) = (documents w ++ [fresh_document document w])%list)
      \/ (fst r = inl (HTTPException 500 "Failed to create document")
          /\ documents (snd r) = documents w)).
Proof.
  cbn zeta.
  unfold create_document, try_except, bind, DocumentModel_init, bind, fresh_uuid, now,
    insert_one_document, bind, ret, round_trip, internal_error, bind, logger, raise.
  cbn [calls ticks uuids set_uuids set_ticks doc_id].
  destruct (driver_error (calls w)) as [msg |]; cbn [fst snd uuids set_calls set_log].
  - split; [reflexivity |]. right. split; reflexivity.
  - match goal with
    | |- context [id_conflict c_documents ?i ?w1] =>
        change (id_conflict c_documents i w1)
          with (id_conflict c_documents (uuid4 (uuids w)) w)
    end.
    destruct (id_conflict c_documents (uuid4 (uuids w)) w);
      cbn [fst snd uuids documents set_calls set_log set_documents].
    + split; [reflexivity |]. right. split; reflexivity.
    + split; [reflexivity |]. left. repeat split.
Qed.

Lemma update_first_private (id : string) (fs : list SetField) (ds : list DocumentModel) :
  stays_private ds (snd (update_first id fs ds)).
Proof.
  unfold stays_private. induction ds as [| d rest IH]; simpl; intros H; [constructor |].
  inversion H as [| ? ? Hd Hrest]; subst.
  destruct (doc_id d =? id); simpl.
  - constructor; [| exact Hrest]. unfold private. rewrite apply_sets_is_public. exact Hd.
  - specialize (IH Hrest). destruct (update_first id fs rest) as [n rest']. simpl in *.
    constructor; assumption.
Qed.

Lemma delete_first_private (id : string) (ds : list DocumentModel) :
  stays_private ds (snd (delete_first id ds)).
Proof.
  unfold stays_private. induction ds as [| d rest IH]; simpl; intros H; [constructor |].
  inversion H as [| ? ? Hd Hrest]; subst.
  destruct (doc_id d =? id); simpl; [exact Hrest |].
  specialize (IH Hrest). destruct (delete_first id rest) as [n rest']. simpl in *.
  constructor; assumption.
Qed.

Lemma update_one_document_private (id : string) (fs : list SetField) :
  keeps stays_private documents (update_one_document id fs).
Proof.
  intros w. unfold update_one_document, bind, round_trip.
  destruct (driver_error (calls w)); [intros H; exact H |].
  pose proof (update_first_private id fs (documents w)) as H.
  cbn [documents set_calls].
  destruct (update_first id fs (documents w)) as [n ds]. exact H.
Qed.

Lemma delete_one_document_private (id : string) :
  keeps stays_private documents (delete_one_document id).
Proof.
  intros w. unfold delete_one_document, bind, round_trip.
  destruct (driver_error (calls w)); [intros H; exact H |].
  pose proof (delete_first_private id (documents w)) as H.
  cbn [documents set_calls].
  destruct (delete_first id (documents w)) as [n ds]. exact H.
Qed.

Lemma create_document_private (document : DocumentCreate) :
  keeps stays_private documents (create_document document).
Proof.
  intros w H.
  destruct (create_document_cases document w) as (_ & [(_ & _ & _ & ->) | (_ & ->)]).
  - apply Forall_app. split; [exact H | constructor; [reflexivity | constructor]].
  - exact H.
Qed.

#[local] Hint Resolve update_one_document_private delete_one_document_private
  create_document_private : frame.

(** The update route publishes nothing in any module namespace, bound
    [datetime] or not. *)
Lemma update_document_in_private (globals : list string) (id : string)
    (update_data : DocumentUpdate) :
  keeps stays_private documents (update_document_in globals id update_data).
Proof. unfold update_document_in. frame. Qed.

Lemma handle_private (ev : Event) : keeps stays_private documents (handle ev).
Proof. destruct ev; unfold handle; frame. Qed.

Lemma created_documents_fresh (evs : list Event) (w0 : World) :
  Forall (fun d => doc_is_public d = false /\ doc_metadata d = [])
         (created_documents (fst (run evs w0))).
Proof.
  revert w0. induction evs as [| ev rest IH]; intros w0; simpl; [constructor |].
  destruct (handle ev w0) as [r w1] eqn:Hstep. specialize (IH w1).
  destruct (run rest w1) as [trace w2]. simpl in *.
  destruct ev; try exact IH.
  destruct r as [e | [d | | | |]]; try exact IH.
  constructor; [| exact IH].
  unfold handle, fmap, bind in Hstep.
  destruct (create_document_cases document w0) as (_ & [(_ & _ & Hr & _) | (Hr & _)]);
    destruct (create_document document w0) as [[e | d'] w']; simpl in Hr;
    try discriminate; injection Hr as ->; injection Hstep as <- _; split; reflexivity.
Qed.

(** C10.  If no stored document is public at the start (none is in an
    empty store), then after any sequence of startups and requests no
    stored document is public: the create route writes [is_public =
    False], the [$set] of the update route has no such key, and no other
    route writes documents.  Every document the create route answered
    with has [is_public = False] and [metadata = {}]. *)
Theorem is_public_never_set (evs : list Event) (w0 : World) :
  Forall private (documents w0) ->
  Forall private (documents (snd (run evs w0)))
  /\ Forall (fun d => doc_is_public d = false /\ doc_metadata d = [])
            (created_documents (fst (run evs w0))).
Proof.
  intros H0. split.
  - exact (run_keeps stays_private documents handle_private evs w0 H0).
  - apply created_documents_fresh.
Qed.

Lemma fresh_uuid_grows : keeps le uuids fresh_uuid.
Proof. intros w. simpl. lia. Qed.

#[local] Hint Resolve fresh_uuid_grows : frame.

Lemma handle_uuids (ev : Event) : keeps le uuids (handle ev).
Proof. destruct ev; unfold handle; frame. Qed.

(** Every document the create route answered with carries a draw of
    [uuid4] made during the run. *)
Lemma created_ids_range (evs : list Event) (w0 : World) :
  Forall (fun d => exists k,
              uuids w0 <= k < uuids (snd (run evs w0)) /\ doc_id d = uuid4 k)
         (created_documents (fst (run evs w0))).
Proof.
  revert w0. induction evs as [| ev rest IH]; intros w0; simpl; [constructor |].
  pose proof (handle_uuids ev w0) as Hmono.
  destruct (handle ev w0) as [r w1] eqn:Hstep. specialize (IH w1).
  pose proof (run_keeps le uuids handle_uuids rest w1) as Hrest.
  destruct (run rest w1) as [trace w2]. simpl in *.
  assert (Hold : Forall (fun d => exists k, uuids w0 <= k < uuids w2 /\ doc_id d = uuid4 k)
                        (created_documents trace)).
  { eapply Forall_impl; [| exact IH]. intros d (k & Hk & Hid). exists k. split; [lia | exact Hid]. }
  destruct ev; try exact Hold.
  destruct r as [e | [d | | | |]]; try exact Hold.
  constructor; [| exact Hold].
  unfold handle, fmap, bind in Hstep.
  destruct (create_document_cases document w0) as (Hu & [(_ & _ & Hr & _) | (Hr & _)]);
    destruct (create_document document w0) as [[e | d'] w']; simpl in Hr, Hu;
    try discriminate; injection Hr as ->; injection Hstep as <- <-.
  exists (uuids w0). split; [lia | reflexivity].
Qed.

(** C5.  After any run of the service, when the store takes the
    insert, [POST /api/documents] with a body holding only a title
    answers with a document of that title whose content is the empty
    string and whose tags are the empty list, appends exactly that
    record to the collection, and, [uuid4] never repeating a value,
    gives it an id that no document created earlier in the run got. *)
Theorem create_document_title_only (evs : list Event) (w0 : World) (title : string) :
  (forall i j, uuid4 i = uuid4 j -> i = j) ->
  driver_error (calls (snd (run evs w0))) = None ->
  id_conflict c_documents (uuid4 (uuids (snd (run evs w0)))) (snd (run evs w0)) = false ->
  let w := snd (run evs w0) in
  let r := create_document (DocumentCreate_init title None None None) w in
  exists d,
    fst r = inr d
    /\ doc_title d = title
    /\ doc_content d = ""
    /\ doc_tags d = []
    /\ documents (snd r) = (documents w ++ [d])%list
    /\ Forall (fun d0 => doc_id d0 <> doc_id d) (created_documents (fst (run evs w0))).
Proof.
  intros Hinj Hcall Hfree w r. subst r.
  destruct (create_document_cases (DocumentCreate_init title None None None) w)
    as (_ & [(_ & _ & Hr & Hd) | (Hr & Hd)]).
  - eexists. split; [exact Hr |]. repeat split; [exact Hd |].
    eapply Forall_impl; [| apply created_ids_range].
    intros d0 (k & Hk & Hid) Heq. fold w in Hk.
    cbn [doc_id fresh_document] in Heq. rewrite Hid in Heq.
    apply Hinj in Heq. lia.
  - exfalso. revert Hr.
    unfold create_document, try_except, bind, DocumentModel_init, bind, fresh_uuid, now,
      insert_one_document, bind, ret.
    trip Hcall. conflict Hfree. discriminate.
Qed.


(** *** What the routes leave alone *)

Lemma handle_get_documents (ev : Event) :
  is_get ev = true -> keeps eq documents (handle ev).
Proof. destruct ev; try discriminate; intros _; unfold handle; frame. Qed.

Lemma handle_get_chat_messages (ev : Event) :
  is_get ev = true -> keeps eq chat_messages (handle ev).
Proof. destruct ev; try discriminate; intros _; unfold handle; frame. Qed.

Lemma handle_get_indexes (ev : Event) :
  is_get ev = true -> keeps eq indexes (handle ev).
Proof. destruct ev; try discriminate; intros _; unfold handle; frame. Qed.

(** X1.  A [GET] route writes nothing: whatever the store answers, and
    whether the route returns or raises, the three collections and the
    indexes are afterwards what they were. *)
Theorem get_routes_write_nothing (ev : Event) (w : World) :
  is_get ev = true ->
  documents (snd (handle ev w)) = documents w
  /\ templates (snd (handle ev w)) = templates w
  /\ chat_messages (snd (handle ev w)) = chat_messages w
  /\ indexes (snd (handle ev w)) = indexes w.
Proof.
  intros Hget. repeat split; symmetry.
  - apply (handle_get_documents ev Hget w).
  - apply (handle_templates ev); destruct ev; discriminate.
  - apply (handle_get_chat_messages ev Hget w).
  - apply (handle_get_indexes ev Hget w).
Qed.

#[local] Instance extends_PreOrder {A : Type} : RelationClasses.PreOrder (@extends A).
Proof.
  split.
  - intros a. exists []. rewrite app_nil_r. reflexivity.
  - intros a b c [x ->] [y ->]. exists (x ++ y)%list. rewrite app_assoc. reflexivity.
Qed.

Lemma insert_one_template_extends (t : TemplateDoc) :
  keeps extends templates (insert_one_template t).
Proof.
  intros w. unfold insert_one_template, bind, round_trip.
  destruct (driver_error (calls w)); [reflexivity |].
  match goal with |- context [if ?b then _ else _] => destruct b end;
    [reflexivity | exists [t]; reflexivity].
Qed.

Lemma insert_one_chat_message_extends (m : ChatMessage) :
  keeps extends chat_messages (insert_one_chat_message m).
Proof.
  intros w. unfold insert_one_chat_message.
  destruct (bson_error m); [reflexivity |]. unfold bind, round_trip.
  destruct (driver_error (calls w)); [reflexivity |].
  match goal with |- context [if ?b then _ else _] => destruct b end;
    [reflexivity | exists [m]; reflexivity].
Qed.

#[local] Hint Resolve insert_one_template_extends insert_one_chat_message_extends : frame.

Lemma handle_extends_templates (ev : Event) : keeps extends templates (handle ev).
Proof. destruct ev; unfold handle; frame. Qed.

Lemma handle_extends_chat_messages (ev : Event) : keeps extends chat_messages (handle ev).
Proof. destruct ev; unfold handle; frame. Qed.

(** X2.  Templates and chat messages are append-only: after any
    sequence of startups and requests, with any pattern of store
    failures, the templates and the chat messages that were stored at
    the start are still there, unchanged and in the same order, followed
    by whatever was added. *)
Theorem templates_and_chat_messages_append_only (evs : list Event) (w0 : World) :
  extends (templates w0) (templates (snd (run evs w0)))
  /\ extends (chat_messages w0) (chat_messages (snd (run evs w0))).
Proof.
  split.
  - exact (run_keeps extends templates handle_extends_templates evs w0).
  - exact (run_keeps extends chat_messages handle_extends_chat_messages evs w0).
Qed.

Lemma update_first_identity (id : string) (fs : list SetField) (ds : list DocumentModel) :
  map identity (snd (update_first id fs ds)) = map identity ds.
Proof.
  induction ds as [| d rest IH]; simpl; [reflexivity |].
  destruct (doc_id d =? id); simpl.
  - f_equal. unfold identity, apply_sets. clear. revert d.
    induction fs as [| f fs IH]; intros d; simpl; [reflexivity |].
    rewrite IH. destruct f; reflexivity.
  - destruct (update_first id fs rest) as [n rest']. simpl in *. f_equal. exact IH.
Qed.

Lemma update_one_document_identities (id : string) (fs : list SetField) :
  keeps eq identities (update_one_document id fs).
Proof.
  intros w. unfold update_one_document, bind, round_trip, identities.
  destruct (driver_error (calls w)); [reflexivity |].
  cbn [documents set_calls].
  pose proof (update_first_identity id fs (documents w)) as H.
  destruct (update_first id fs (documents w)) as [n ds]. symmetry. exact H.
Qed.

#[local] Hint Resolve update_one_document_identities : frame.

(** X3.  The update route, in whatever module namespace it runs (the
    one of [server.py] included), stores no new document, drops none,
    and leaves the id, [created_at], [template_id] and [is_public] of
    every stored document as they were, in the same order. *)
Theorem update_keeps_identities
    (globals : list string) (document_id : string) (update_data : DocumentUpdate)
    (w : World) :
  map identity (documents (snd (update_document_in globals document_id update_data w)))
  = map identity (documents w).
Proof.
  symmetry.
  assert (H : keeps eq identities (update_document_in globals document_id update_data))
    by (unfold update_document_in; frame).
  exact (H w).
Qed.

(** *** Startup *)

Lemma create_indexes_returns (w : World) : fst (create_indexes w) = inr tt.
Proof.
  rewrite create_indexes_unfold. unfold try_except, bind.
  destruct (for_each index_statements run_statement w) as [[e | []] w1]; reflexivity.
Qed.

(** X4.  The ping decides [connect_to_mongo]: when it fails the error
    is logged and the same exception raised again, with no index
    statement sent; when it goes through the function returns normally
    whatever happens to the index statements.  So startup with a failed
    ping stops there: nothing is counted or seeded. *)
Theorem connect_to_mongo_ping (w : World) :
  match driver_error (calls w) with
  | Some msg =>
      connect_to_mongo w
        = (inl (PyMongoError msg),
           set_log (log w ++ [(ERROR, "Failed to connect to MongoDB: " ++ msg)])
             (set_calls (S (calls w)) w))
      /\ lifespan_startup w = connect_to_mongo w
  | None => fst (connect_to_mongo w) = inr tt
  end.
Proof.
  unfold lifespan_startup, connect_to_mongo, try_except, bind, round_trip.
  destruct (driver_error (calls w)) as [msg |]; [split; reflexivity |].
  unfold logger.
  match goal with |- context [create_indexes ?w1] =>
    pose proof (create_indexes_returns w1) as H;
    destruct (create_indexes w1) as [[e | []] w2]
  end; [discriminate | reflexivity].
Qed.

(** *** Document ids *)

#[local] Instance keeps_ids_drawn_PreOrder : RelationClasses.PreOrder keeps_ids_drawn.
Proof. split; [intros a H; exact H | intros a b c Hab Hbc H; auto]. Qed.

Lemma fresh_uuid_ids_drawn : keeps keeps_ids_drawn stored_ids fresh_uuid.
Proof.
  intros w [Hnd Hall]. split; [exact Hnd |].
  eapply Forall_impl; [| exact Hall].
  intros i (k & Hk & Hi). exists k. simpl in *. split; [lia | exact Hi].
Qed.

Lemma update_first_ids (id : string) (fs : list SetField) (ds : list DocumentModel) :
  map doc_id (snd (update_first id fs ds)) = map doc_id ds.
Proof.
  induction ds as [| d rest IH]; simpl; [reflexivity |].
  destruct (doc_id d =? id); simpl.
  - rewrite apply_sets_id. reflexivity.
  - destruct (update_first id fs rest) as [n rest']. simpl in *. f_equal. exact IH.
Qed.

Lemma update_one_document_ids_drawn (id : string) (fs : list SetField) :
  keeps keeps_ids_drawn stored_ids (update_one_document id fs).
Proof.
  intros w. unfold update_one_document, bind, round_trip, stored_ids.
  destruct (driver_error (calls w)); [intros H; exact H |].
  cbn [documents uuids set_calls].
  pose proof (update_first_ids id fs (documents w)) as H.
  destruct (update_first id fs (documents w)) as [n ds]. simpl in *.
  rewrite H. intros Hd. exact Hd.
Qed.

Lemma delete_first_ids_drawn (id : string) (n : nat) (ds : list DocumentModel) :
  ids_drawn (map doc_id ds, n) -> ids_drawn (map doc_id (snd (delete_first id ds)), n).
Proof.
  unfold ids_drawn. simpl.
  induction ds as [| d rest IH]; simpl; intros [Hnd Hall]; [split; assumption |].
  inversion Hnd as [| ? ? Hd Hrest]; inversion Hall as [| ? ? Hk Hks]; subst.
  destruct (doc_id d =? id); simpl; [split; assumption |].
  destruct (IH (conj Hrest Hks)) as [Hnd' Hall'].
  assert (Hsub : forall i, In i (map doc_id (snd (delete_first id rest))) ->
                           In i (map doc_id rest)).
  { clear. induction rest as [| d' rest IH]; simpl; [tauto |].
    destruct (doc_id d' =? id); simpl; [tauto |].
    destruct (delete_first id rest) as [m rest']. simpl in *.
    intros i [Hi | Hi]; [left; exact Hi | right; apply IH; exact Hi]. }
  destruct (delete_first id rest) as [m rest']. simpl in *.
  split; constructor; auto.
Qed.

Lemma delete_one_document_ids_drawn (id : string) :
  keeps keeps_ids_drawn stored_ids (delete_one_document id).
Proof.
  intros w. unfold delete_one_document, bind, round_trip, stored_ids.
  destruct (driver_error (calls w)); [intros H; exact H |].
  cbn [documents uuids set_calls].
  pose proof (delete_first_ids_drawn id (uuids w) (documents w)) as H.
  destruct (delete_first id (documents w)) as [n ds]. exact H.
Qed.

Section UniqueIds.

Hypothesis uuid4_never_repeats : forall i j, uuid4 i = uuid4 j -> i = j.

Lemma drawn_ids_are_old (w : World) :
  ids_drawn (stored_ids w) -> ~ In (uuid4 (uuids w)) (map doc_id (documents w)).
Proof.
  intros [_ Hall] Hin. unfold stored_ids in Hall. simpl in Hall.
  rewrite Forall_forall in Hall. destruct (Hall _ Hin) as (k & Hk & Heq).
  apply uuid4_never_repeats in Heq. lia.
Qed.

Lemma create_document_ids_drawn (document : DocumentCreate) :
  keeps keeps_ids_drawn stored_ids (create_document document).
Proof.
  intros w Hw. pose proof (drawn_ids_are_old w Hw) as Hnew.
  destruct Hw as [Hnd Hall]. unfold stored_ids in *. simpl in Hnd, Hall.
  assert (Hweak : Forall (fun i => exists k, k < S (uuids w) /\ i = uuid4 k)
                         (map doc_id (documents w))).
  { eapply Forall_impl; [| exact Hall]. intros i (k & Hk & Hi). exists k. split; [lia | exact Hi]. }
  destruct (create_document_cases document w) as (Hu & [(_ & _ & _ & Hd) | (_ & Hd)]);
    rewrite Hu, Hd; split; simpl; try assumption.
  - rewrite map_app. simpl. apply NoDup_app; [exact Hnd | repeat constructor; simpl; tauto |].
    intros i Hi [<- | []]. exact (Hnew Hi).
  - rewrite map_app. apply Forall_app. split; [exact Hweak |].
    repeat constructor. exists (uuids w). split; [lia | reflexivity].
Qed.

#[local] Hint Resolve fresh_uuid_ids_drawn update_one_document_ids_drawn
  delete_one_document_ids_drawn create_document_ids_drawn : frame.

Lemma handle_ids_drawn (ev : Event) : keeps keeps_ids_drawn stored_ids (handle ev).
Proof. destruct ev; unfold handle; frame. Qed.

Lemma run_ids_drawn (evs : list Event) (w0 : World) :
  documents w0 = [] -> ids_drawn (stored_ids (snd (run evs w0))).
Proof.
  intros Hempty.
  apply (run_keeps keeps_ids_drawn stored_ids handle_ids_drawn evs w0).
  unfold ids_drawn, stored_ids. rewrite Hempty. simpl. split; constructor.
Qed.

(** X5.  Starting from an empty [documents] collection, after any
    sequence of startups and requests no two stored documents share an
    id, whether or not the unique index on [id] could be built,
    provided [uuid4] never repeats a value. *)
Theorem stored_ids_are_distinct (evs : list Event) (w0 : World) :
  documents w0 = [] ->
  NoDup (map doc_id (documents (snd (run evs w0)))).
Proof. intros Hempty. exact (proj1 (run_ids_drawn evs w0 Hempty)). Qed.

Lemma find_appended (d : DocumentModel) (ds : list DocumentModel) :
  ~ In (doc_id d) (map doc_id ds) ->
  find (fun d' => doc_id d' =? doc_id d) (ds ++ [d]) = Some d.
Proof.
  induction ds as [| d0 rest IH]; simpl; intros Hnew.
  - rewrite String.eqb_refl. reflexivity.
  - destruct (doc_id d0 =? doc_id d) eqn:E.
    + apply String.eqb_eq in E. exfalso. apply Hnew. left. exact E.
    + apply IH. intros Hin. apply Hnew. right. exact Hin.
Qed.

Lemma to_millis_bounds (t : datetime) : (t - 1000 < to_millis t <= t)%Z.
Proof.
  unfold to_millis.
  pose proof (Z.div_mod t 1000 ltac:(lia)).
  pose proof (Z.mod_pos_bound t 1000 ltac:(lia)). lia.
Qed.

(** X6.  Created, then fetched: after any sequence of startups and
    requests on a store that had no document at the start, when the
    store answers the two calls, [POST /api/documents] followed by
    [GET /api/documents/{id}] with the id just returned gives back the
    created document as the store keeps it: the same id, the title,
    content, template reference and tags of the request, not public,
    empty metadata, and the two datetimes of the returned record cut to
    the millisecond (so less than a millisecond earlier). *)
Theorem get_document_after_create
    (evs : list Event) (w0 : World) (document : DocumentCreate) :
  documents w0 = [] ->
  driver_error (calls (snd (run evs w0))) = None ->
  driver_error (S (calls (snd (run evs w0)))) = None ->
  let created := create_document document (snd (run evs w0)) in
  exists d fetched,
    fst created = inr d
    /\ fst (get_document (doc_id d) (snd created)) = inr fetched
    /\ doc_id fetched = doc_id d
    /\ doc_title fetched = dc_title document
    /\ doc_content fetched = dc_content document
    /\ doc_template_id fetched = dc_template_id document
    /\ doc_tags fetched = dc_tags document
    /\ doc_is_public fetched = false
    /\ doc_metadata fetched = []
    /\ doc_created_at fetched = to_millis (doc_created_at d)
    /\ doc_updated_at fetched = to_millis (doc_updated_at d)
    /\ (doc_created_at d - 1000 < doc_created_at fetched <= doc_created_at d)%Z
    /\ (doc_updated_at d - 1000 < doc_updated_at fetched <= doc_updated_at d)%Z.
Proof.
  intros Hempty Hpost Hget created. subst created.
  set (w := snd (run evs w0)) in *.
  pose proof (drawn_ids_are_old w (run_ids_drawn evs w0 Hempty)) as Hnew.
  assert (Hfree : id_conflict c_documents (uuid4 (uuids w)) w = false).
  { unfold id_conflict, ids_of.
    destruct (existsb (String.eqb (uuid4 (uuids w))) (map doc_id (documents w))) eqn:E;
      [apply existsb_eqb_In in E; contradiction | apply andb_false_r]. }
  exists (fresh_document document w), (read_back (fresh_document document w)).
  assert (Hrun : create_document document w
                 = (inr (fresh_document document w),
                    set_documents (documents w ++ [fresh_document document w])
                      (set_calls (S (calls w))
                         (set_ticks (S (S (ticks w))) (set_uuids (S (uuids w)) w))))).
  { unfold create_document, try_except, bind, DocumentModel_init, bind, fresh_uuid, now,
      insert_one_document, bind, ret.
    trip Hpost. conflict Hfree. reflexivity. }
  rewrite Hrun. cbn [fst snd]. split; [reflexivity |].
  split.
  - unfold get_document, try_except, bind, find_one_document, bind.
    trip Hget. cbn [fst snd documents set_documents set_calls].
    rewrite (find_appended (fresh_document document w) (documents w) Hnew). reflexivity.
  - repeat split; try reflexivity; apply to_millis_bounds.
Qed.

End UniqueIds.

(** *** Deleting *)

Lemma filter_all {A : Type} (f : A -> bool) (l : list A) :
  (forall x, In x l -> f x = true) -> filter f l = l.
Proof.
  induction l as [| x rest IH]; simpl; intros H; [reflexivity |].
  rewrite (H x (or_introl eq_refl)). f_equal. apply IH. intros y Hy. apply H. right. exact Hy.
Qed.

Lemma delete_first_distinct (d : DocumentModel) (ds : list DocumentModel) :
  NoDup (map doc_id ds) -> In d ds ->
  delete_first (doc_id d) ds
  = (1, filter (fun d' => negb (doc_id d' =? doc_id d)) ds).
Proof.
  induction ds as [| d0 rest IH]; simpl; intros Hnd Hin; [contradiction |].
  inversion Hnd as [| ? ? Hd0 Hrest]; subst.
  destruct (doc_id d0 =? doc_id d) eqn:E; simpl.
  - apply String.eqb_eq in E. f_equal. symmetry. apply filter_all.
    intros x Hx. apply negb_true_iff. apply String.eqb_neq. intros Heq.
    apply Hd0. rewrite E, <- Heq. apply in_map. exact Hx.
  - destruct Hin as [-> | Hin]; [rewrite String.eqb_refl in E; discriminate |].
    rewrite (IH Hrest Hin). reflexivity.
Qed.

Lemma find_filtered_out (id : string) (ds : list DocumentModel) :
  find (fun d => doc_id d =? id) (filter (fun d' => negb (doc_id d' =? id)) ds) = None.
Proof.
  induction ds as [| d rest IH]; simpl; [reflexivity |].
  destruct (doc_id d =? id) eqn:E; simpl; [exact IH | rewrite E; exact IH].
Qed.

(** X7.  When the stored ids are pairwise distinct and the store
    answers, [DELETE /api/documents/{id}] of a stored document confirms
    the deletion and removes that document and no other, keeping the
    order of the rest; fetching or deleting the same id again then
    answers 404. *)
Theorem delete_document_then_gone (w : World) (d : DocumentModel) :
  NoDup (map doc_id (documents w)) ->
  In d (documents w) ->
  driver_error (calls w) = None ->
  driver_error (S (calls w)) = None ->
  let deleted := delete_document (doc_id d) w in
  fst deleted = inr (PyDict [ ("message", PyStr "Document deleted successfully") ])
  /\ documents (snd deleted)
       = filter (fun d' => negb (doc_id d' =? doc_id d)) (documents w)
  /\ fst (get_document (doc_id d) (snd deleted))
       = inl (HTTPException 404 "Document not found")
  /\ fst (delete_document (doc_id d) (snd deleted))
       = inl (HTTPException 404 "Document not found").
Proof.
  intros Hnd Hin H0 H1 deleted.
  assert (Hrun : deleted
                 = (inr (PyDict [ ("message", PyStr "Document deleted successfully") ]),
                    set_documents
                      (filter (fun d' => negb (doc_id d' =? doc_id d)) (documents w))
                      (set_calls (S (calls w)) w))).
  { subst deleted. unfold delete_document, try_except, bind, delete_one_document, bind.
    trip H0. cbn [documents set_calls].
    rewrite (delete_first_distinct d (documents w) Hnd Hin). reflexivity. }
  rewrite Hrun. cbn [fst snd]. split; [reflexivity |]. split; [reflexivity |]. split.
  - unfold get_document, try_except, bind, find_one_document, bind.
    trip H1. cbn [documents set_documents set_calls].
    rewrite find_filtered_out. reflexivity.
  - unfold delete_document, try_except, bind, delete_one_document, bind.
    trip H1. cbn [documents set_documents set_calls].
    rewrite (delete_first_missing _ _ (find_filtered_out (doc_id d) (documents w))).
    reflexivity.
Qed.

(** *** Templates by id *)

Lemma get_template_found (id : string) (t : TemplateDoc) (w : World) :
  driver_error (calls w) = None ->
  find (fun t' => td_id t' =? id) (templates w) = Some t ->
  exists m, fst (get_template id w) = inr m /\ shows t m.
Proof.
  intros Hcall Hfind.
  unfold get_template, try_except, bind, find_one_template, bind.
  trip Hcall. cbn [templates set_calls]. rewrite Hfind.
  match goal with |- context [TemplateModel_init t ?w1] =>
    destruct (TemplateModel_init_shows t w1) as (m & w2 & -> & Hm)
  end.
  exists m. split; [reflexivity | exact Hm].
Qed.

(** X8.  Seeded, then fetched by id: when the store holds no template
    and answers the seven calls, after [initialize_templates] every
    built-in template is returned by [GET /api/templates/{id}] under its
    own id, with the name, description, category and content of the
    seeder's list and the builtin flag set. *)
Theorem get_template_after_seeding (w : World) (t : TemplateDoc) :
  templates w = [] ->
  (forall i, i <= 6 -> driver_error (calls w + i) = None) ->
  In t builtin_templates ->
  exists m,
    fst (get_template (td_id t) (snd (initialize_templates w))) = inr m
    /\ shows t m
    /\ tpl_is_builtin m = true.
Proof.
  intros Hempty Hcalls Hin.
  assert (H0 : driver_error (calls w) = None).
  { rewrite <- (Nat.add_0_r (calls w)). apply Hcalls. lia. }
  assert (Hnone : count_builtin (templates w) = 0) by (rewrite Hempty; reflexivity).
  destruct (initialize_templates_seeds w H0 Hnone) as (_ & Hc & Hs & _).
  rewrite accepted_from_all in Hs.
  2:{ intros i t' Hi. unfold accepted.
      assert (Hlt : i < length builtin_templates) by (apply nth_error_Some; congruence).
      cbn [length builtin_templates] in Hlt.
      replace (S (calls w) + i) with (calls w + S i) by lia.
      rewrite Hcalls by lia.
      unfold id_conflict, ids_of. rewrite Hempty. simpl. rewrite andb_false_r. reflexivity. }
  rewrite Hempty in Hs. simpl in Hs.
  destruct (get_template_found (td_id t) t (snd (initialize_templates w))) as (m & Hr & Hm).
  - rewrite Hc. apply Hcalls. lia.
  - rewrite Hs. simpl in Hin.
    destruct Hin as [<- | [<- | [<- | [<- | [<- | []]]]]]; reflexivity.
  - exists m. split; [exact Hr |]. split; [exact Hm |].
    destruct Hm as (_ & _ & _ & _ & _ & _ & Hb & _). rewrite Hb.
    simpl in Hin. destruct Hin as [<- | [<- | [<- | [<- | [<- | []]]]]]; reflexivity.
Qed.

Lemma filter_nothing {A : Type} (f : A -> bool) (l : list A) :
  (forall x, In x l -> f x = false) -> filter f l = [].
Proof.
  induction l as [| x rest IH]; simpl; intros H; [reflexivity |].
  rewrite (H x (or_introl eq_refl)). apply IH. intros y Hy. apply H. right. exact Hy.
Qed.

(** X9.  A category no stored template has is not an error: when the
    store answers, [GET /api/templates?category=c] with a non-empty [c]
    that matches nothing returns the empty list. *)
Theorem get_templates_no_match (w : World) (c : string) :
  driver_error (calls w) = None ->
  c <> "" ->
  (forall t, In t (templates w) -> td_category t <> c) ->
  fst (get_templates (Some c) w) = inr [].
Proof.
  intros Hcall Hc Hnone.
  destruct (get_templates_spec (Some c) w Hcall) as (ms & Hr & Hms).
  rewrite Hr. f_equal. f_equal.
  assert (Hsel : selected (templates_query (Some c)) (templates w) = []).
  { simpl. unfold truthy_str. destruct (c =? "") eqn:E;
      [apply String.eqb_eq in E; contradiction |].
    simpl. apply filter_nothing. intros t Ht.
    apply String.eqb_neq. apply Hnone. exact Ht. }
  rewrite Hsel in Hms. inversion Hms. reflexivity.
Qed.

(** *** How requests end *)

Lemma fmap_run {A B : Type} (f : A -> B) (m : M A) (w : World) :
  fmap f m w
  = (match fst (m w) with inl e => inl e | inr a => inr (f a) end, snd (m w)).
Proof. unfold fmap, bind, ret. destruct (m w) as [[e | a] w1]; reflexivity. Qed.

Lemma outcome_fmap {A B : Type} (ev : Event) (f : A -> B) (m : M A) (w : World) :
  outcome ev w (m w) -> outcome ev w (fmap f m w).
Proof.
  rewrite fmap_run. unfold outcome. cbn [fst snd].
  destruct (fst (m w)); intros H; exact H.
Qed.

Lemma internal_route {A : Type} (ev : Event) (body : M A) (what : string) (w : World) :
  keeps eq log body ->
  outcome ev w (try_except body (internal_error what (detail_500 ev)) w).
Proof.
  intros Hlog. specialize (Hlog w). unfold outcome, try_except.
  destruct (body w) as [[e | a] w1]; cbn [fst snd] in *; [| congruence].
  right. split; [reflexivity |].
  exists (what ++ ": " ++ exc_str e). rewrite Hlog. reflexivity.
Qed.

Lemma reraise_route {A : Type} (ev : Event) (body : M A) (what : string) (w : World) :
  keeps eq log body ->
  (forall w' e, fst (body w') = inl e -> is_http e = true ->
                e = HTTPException 404 (detail_404 ev)) ->
  outcome ev w (try_except body (reraise_http what (detail_500 ev)) w).
Proof.
  intros Hlog H404. specialize (Hlog w). specialize (H404 w).
  unfold outcome, try_except.
  destruct (body w) as [[e | a] w1]; cbn [fst snd] in *; [| congruence].
  specialize (H404 e eq_refl).
  destruct e; cbn [reraise_http];
    try (right; split; [reflexivity |]; eexists; rewrite Hlog; reflexivity).
  left. split; [apply H404; reflexivity | symmetry; exact Hlog].
Qed.

(** The driver never raises an [HTTPException]; a route body raises one
    only where it says so. *)
Ltac body_raises :=
  intros ?w ?e;
  unfold find_one_document, find_one_template, update_one_document,
    delete_one_document, TemplateModel_init, load_global, bind, round_trip, now,
    ret, raise;
  repeat match goal with
         | |- context [driver_error ?n] => destruct (driver_error n)
         | |- context [update_first ?i ?f ?d] => destruct (update_first i f d) as [[| ?] ?]
         | |- context [delete_first ?i ?d] => destruct (delete_first i d) as [[| ?] ?]
         | |- context [find ?f ?l] => destruct (find f l)
         | |- context [match td_created_at ?t with _ => _ end] => destruct (td_created_at t)
         | |- context [if ?b then _ else _] => destruct b
         end;
  cbn; intros ?H ?H; try discriminate;
  match goal with H : inl _ = inl _ |- _ => injection H as <- end;
  first [ reflexivity | discriminate ].

(** X10.  Every call of a route function (a request whose arguments
    passed validation) ends in one of three ways: an answer, a 404 with
    the route's not-found detail, or a 500 with the route's fixed
    detail.  No other exception leaves a route function, the cause of a
    500 never reaches its detail, and the route logs exactly one error
    line for a 500 and nothing for an answer or a 404. *)
Theorem request_outcomes (ev : Event) (w : World) :
  ev <> Startup -> outcome ev w (handle ev w).
Proof.
  intros Hev. destruct ev; [contradiction | ..]; unfold handle; apply outcome_fmap.
  - reflexivity.
  - refine (internal_route (POST_documents document) _ _ w _). frame.
  - refine (internal_route (GET_documents skip limit) _ _ w _). frame.
  - refine (reraise_route (GET_document document_id) _ _ w _ _); [frame | body_raises].
  - refine (reraise_route (PUT_document document_id update_data) _ _ w _ _);
      [frame | body_raises].
  - refine (reraise_route (DELETE_document document_id) _ _ w _ _); [frame | body_raises].
  - refine (internal_route (GET_templates category) _ _ w _). frame.
  - refine (reraise_route (GET_template template_id) _ _ w _ _); [frame | body_raises].
  - refine (internal_route (POST_chat chat_request) _ _ w _). frame.
  - reflexivity.
Qed.







Lemma create_index_extends (c : Collection) (key : string) (unique : bool) :
  keeps extends indexes (create_index c key unique).
Proof.
  intros w. unfold create_index, bind, round_trip.
  destruct (driver_error (calls w)); [reflexivity |].
  cbn [indexes set_calls].
  destruct (find (index_on c key) (indexes w)) as [ix |].
  - destruct (Bool.eqb (ix_unique ix) unique); reflexivity.
  - match goal with |- context [if ?b then _ else _] => destruct b end;
      [reflexivity | eexists; reflexivity].
Qed.

#[local] Hint Resolve create_index_extends : frame.

(** X12.  Startup is safe for stored data: whatever fails on the way,
    it leaves the documents and the chat messages untouched, and the
    templates and indexes that existed are still there afterwards, in
    order, possibly followed by new ones. *)
Theorem startup_preserves_data (w : World) :
  documents (snd (lifespan_startup w)) = documents w
  /\ chat_messages (snd (lifespan_startup w)) = chat_messages w
  /\ extends (templates w) (templates (snd (lifespan_startup w)))
  /\ extends (indexes w) (indexes (snd (lifespan_startup w))).
Proof.
  split; [| split; [| split]].
  - symmetry. assert (H : keeps eq documents lifespan_startup) by frame. exact (H w).
  - symmetry. assert (H : keeps eq chat_messages lifespan_startup) by frame. exact (H w).
  - assert (H : keeps extends templates lifespan_startup) by frame. exact (H w).
  - assert (H : keeps extends indexes lifespan_startup) by frame. exact (H w).
Qed.


End Backend.

(** ** Worked examples on concrete stores *)

Example repr_escapes :
  PyRepr.repr (PyDict [("a\b", PyList [PyStr "x'y"; PyInt (-12); PyBool true; PyNone])])
  = String "{" (String "'" "a\\b': [") ++ String PyRepr.dquote "x'y"
    ++ String PyRepr.dquote ", -12, True, None]}".
Proof. reflexivity. Qed.

(** [PUT] with only a title on an existing document: 500, nothing
    written. *)
Example put_title_on_existing_document :
  let r := update_document no_driver_error clock "d1" (title_only "New") one_document_world in
  fst r = inl (HTTPException 500 "Failed to update document")
  /\ documents (snd r) = documents one_document_world
  /\ log (snd r) = [(ERROR, "Error updating document d1: name 'datetime' is not defined")].
Proof. repeat split. Qed.

(** The same request in a namespace that binds [datetime]: the title
    and [updated_at] change; the record comes back with its datetimes
    as the store keeps them, to the millisecond. *)
Example put_title_with_datetime_bound :
  let r := update_document_in no_driver_error clock ("datetime" :: server_globals)
             "d1" (title_only "New") one_document_world in
  fst r = inr {| doc_id := "d1"; doc_title := "New"; doc_content := "\section{A}";
                 doc_template_id := None; doc_created_at := 0%Z; doc_updated_at := 0%Z;
                 doc_tags := ["draft"]; doc_is_public := false; doc_metadata := [] |}.
Proof. reflexivity. Qed.

Example seeding_the_empty_store :
  map td_name (templates (snd (initialize_templates no_driver_error empty_world)))
  = ["Academic Article"; "Business Report"; "Presentation Slides";
     "Mathematical Document"; "Formal Letter"].
Proof. vm_compute. reflexivity. Qed.

Lemma unary_uuid_inj (i j : nat) : unary_uuid i = unary_uuid j -> i = j.
Proof.
  revert j. induction i as [| i IH]; intros [| j]; simpl; intros H;
    try discriminate; [reflexivity |].
  injection H as H. f_equal. apply IH. exact H.
Qed.

(** *** The theorems at concrete inputs *)

Lemma missing_document_witness :
  find (fun d => doc_id d =? "nope") (documents one_document_world) = None
  /\ fst (update_document no_driver_error clock "nope" (title_only "New") one_document_world)
       = inl (HTTPException 500 "Failed to update document")
  /\ fst (delete_document no_driver_error "nope" one_document_world)
       = inl (HTTPException 404 "Document not found")
  /\ documents (snd (delete_document no_driver_error "nope" one_document_world))
       = documents one_document_world.
Proof.
  pose proof (missing_document_put_500_delete_404 no_driver_error clock
                one_document_world "nope" (title_only "New") eq_refl)
    as [[Hput _] [Hdel Hkept]].
  split; [reflexivity |]. split; [exact Hput |]. split; [exact (Hdel eq_refl) | exact Hkept].
Defined.

Lemma seeding_witness :
  0 < count_builtin (templates seeded_world)
  /\ templates empty_world = []
  /\ templates (snd (initialize_templates no_driver_error seeded_world))
       = templates seeded_world
  /\ count_builtin (templates (seed_times no_driver_error 3 empty_world)) <= 5
  /\ count_builtin
       (templates (snd (run no_driver_error unary_uuid clock whole_page no_encode_error
                          [Startup; POST_chat hello; Startup] empty_world))) <= 5.
Proof.
  assert (Hpos : 0 < count_builtin (templates seeded_world)) by (vm_compute; lia).
  split; [exact Hpos |]. split; [reflexivity |].
  exact (seeding_is_idempotent no_driver_error unary_uuid clock whole_page no_encode_error
           seeded_world empty_world 3 [Startup; POST_chat hello; Startup] Hpos eq_refl).
Defined.

Lemma chat_witness :
  ints_fit (PyDict (context_or_empty (cr_context hello))) = true
  /\ no_encode_error (chat_record unary_uuid clock hello empty_world) = None
  /\ no_driver_error (calls empty_world) = None
  /\ id_conflict c_chat_messages (unary_uuid (uuids empty_world)) empty_world = false
  /\ fst (chat_with_ai no_driver_error unary_uuid clock no_encode_error hello empty_world)
     = inr chat_response
  /\ map msg_message
       (chat_messages
          (snd (chat_with_ai no_driver_error unary_uuid clock no_encode_error hello
                  empty_world)))
     = ["How do I typeset a matrix?"].
Proof.
  pose proof (chat_with_ai_fixed_reply no_driver_error unary_uuid clock no_encode_error
                empty_world hello eq_refl eq_refl eq_refl eq_refl) as (Hr & _ & Hm).
  split; [reflexivity |]. split; [reflexivity |]. split; [reflexivity |].
  split; [reflexivity |]. split; [exact Hr |].
  rewrite Hm. reflexivity.
Defined.

Lemma create_document_witness :
  (forall i j, unary_uuid i = unary_uuid j -> i = j)
  /\ exists d,
       fst (create_document no_driver_error unary_uuid clock
              (DocumentCreate_init "Second" None None None)
              (snd (run no_driver_error unary_uuid clock whole_page no_encode_error
                      [POST_documents (DocumentCreate_init "First" None None None);
                       GET_health] empty_world)))
         = inr d
       /\ doc_content d = ""
       /\ doc_tags d = []
       /\ Forall (fun d0 => doc_id d0 <> doc_id d)
            (created_documents
               (fst (run no_driver_error unary_uuid clock whole_page no_encode_error
                       [POST_documents (DocumentCreate_init "First" None None None);
                        GET_health] empty_world))).
Proof.
  split; [exact unary_uuid_inj |].
  destruct (create_document_title_only no_driver_error unary_uuid clock whole_page no_encode_error
              [POST_documents (DocumentCreate_init "First" None None None); GET_health]
              empty_world "Second" unary_uuid_inj eq_refl eq_refl)
    as (d & Hr & _ & Hc & Ht & _ & Hfresh).
  exists d. split; [exact Hr |]. split; [exact Hc |]. split; [exact Ht | exact Hfresh].
Defined.

Lemma seeder_witness :
  no_driver_error (calls empty_world) = None
  /\ count_builtin (templates empty_world) = 0
  /\ fst (initialize_templates no_driver_error empty_world) = inr tt
  /\ calls (snd (initialize_templates no_driver_error empty_world)) = 6
  /\ templates (snd (initialize_templates no_driver_error empty_world)) = builtin_templates.
Proof.
  pose proof (initialize_templates_inserts_each no_driver_error empty_world eq_refl eq_refl)
    as (_ & _ & Hr & Hc & _ & _ & Hall).
  split; [reflexivity |]. split; [reflexivity |]. split; [exact Hr |]. split; [exact Hc |].
  apply Hall. intros i t _. reflexivity.
Defined.

Lemma get_templates_witness :
  no_driver_error (calls seeded_world) = None
  /\ Some "academic" <> Some ""
  /\ exists ts ms,
       fst (get_templates no_driver_error clock (Some "academic") seeded_world) = inr ms
       /\ Forall2 shows ts ms
       /\ Permutation ts (filter (fun t => td_category t =? "academic") (templates seeded_world))
       /\ StronglySorted (fun a b => (tpl_name a <=? tpl_name b) = true) ms.
Proof.
  assert (Hne : Some "academic" <> Some "") by discriminate.
  split; [reflexivity |]. split; [exact Hne |].
  exact (get_templates_by_category no_driver_error clock seeded_world (Some "academic")
           eq_refl Hne).
Defined.

Lemma empty_category_witness :
  no_driver_error (calls one_template_world) = None
  /\ get_templates no_driver_error clock (Some "") one_template_world
     = get_templates no_driver_error clock None one_template_world
  /\ exists ts ms,
       fst (get_templates no_driver_error clock (Some "") one_template_world) = inr ms
       /\ Forall2 shows ts ms
       /\ Permutation ts (templates one_template_world).
Proof.
  split; [reflexivity |].
  exact (get_templates_empty_category no_driver_error clock one_template_world eq_refl).
Defined.

Lemma is_public_witness :
  Forall private (documents empty_world)
  /\ Forall private
       (documents (snd (run no_driver_error unary_uuid clock whole_page no_encode_error
                          [POST_documents (DocumentCreate_init "First" None None None);
                           PUT_document "u" (title_only "New");
                           DELETE_document "u"] empty_world)))
  /\ Forall (fun d => doc_is_public d = false /\ doc_metadata d = [])
       (created_documents
          (fst (run no_driver_error unary_uuid clock whole_page no_encode_error
                  [POST_documents (DocumentCreate_init "First" None None None);
                   PUT_document "u" (title_only "New");
                   DELETE_document "u"] empty_world))).
Proof.
  assert (H0 : Forall private (documents empty_world)) by constructor.
  split; [exact H0 |].
  exact (is_public_never_set no_driver_error unary_uuid clock whole_page no_encode_error
           [POST_documents (DocumentCreate_init "First" None None None);
            PUT_document "u" (title_only "New");
            DELETE_document "u"] empty_world H0).
Defined.

(** *** Where two sentences of the specification fail *)

(** C7 as stated, at the empty category: the store holds one template,
    of category [academic]; the request [?category=] gets it back,
    although no stored template has the empty category. *)
Lemma get_templates_empty_category_counterexample :
  filter (fun t => td_category t =? "") (templates one_template_world) = []
  /\ fst (get_templates no_driver_error clock (Some "") one_template_world)
     = inr [ {| tpl_id := "t1"; tpl_name := "Notes"; tpl_description := "Lecture notes";
                tpl_content := "\documentclass{article}"; tpl_category := "academic";
                tpl_preview_image := None; tpl_created_at := 0%Z;
                tpl_is_builtin := true; tpl_metadata := [] |} ].
Proof. split; reflexivity. Qed.

(** C4 as stated, at a context holding the integer 2^64 on a store
    that answers every call and holds no chat message: the record
    cannot be encoded, the route answers 500 and nothing is persisted. *)
Lemma chat_with_ai_wide_int_counterexample :
  no_driver_error (calls empty_world) = None
  /\ id_conflict c_chat_messages (unary_uuid (uuids empty_world)) empty_world = false
  /\ fst (chat_with_ai no_driver_error unary_uuid clock no_encode_error wide_context
            empty_world)
     = inl (HTTPException 500 "Chat service temporarily unavailable")
  /\ chat_messages
       (snd (chat_with_ai no_driver_error unary_uuid clock no_encode_error wide_context
               empty_world))
     = [].
Proof. repeat split. Qed.

(** C8 as stated, when only the first store call fails: the first
    statement fails, none of the seven others is sent, and no index
    exists afterwards, although each of them would have gone through. *)
Lemma create_indexes_counterexample :
  (forall n, first_call_fails (S n) = None)
  /\ fst (create_indexes first_call_fails empty_world) = inr tt
  /\ calls (snd (create_indexes first_call_fails empty_world)) = 1
  /\ indexes (snd (create_indexes first_call_fails empty_world)) = []
  /\ indexes (snd (create_indexes no_driver_error empty_world)) = index_statements.
Proof. repeat split. Qed.

(** *** Further theorems at concrete inputs *)

Lemma get_routes_witness :
  is_get (GET_templates (Some "academic")) = true
  /\ templates (snd (handle no_driver_error unary_uuid clock whole_page no_encode_error
                       (GET_templates (Some "academic")) seeded_world))
     = templates seeded_world.
Proof.
  split; [reflexivity |].
  exact (proj1 (proj2 (get_routes_write_nothing no_driver_error unary_uuid clock whole_page no_encode_error
                         (GET_templates (Some "academic")) seeded_world eq_refl))).
Defined.

Lemma stored_ids_witness :
  (forall i j, unary_uuid i = unary_uuid j -> i = j)
  /\ documents empty_world = []
  /\ NoDup (map doc_id
              (documents (snd (run no_driver_error unary_uuid clock whole_page no_encode_error
                                 busy_morning empty_world)))).
Proof.
  split; [exact unary_uuid_inj |]. split; [reflexivity |].
  exact (stored_ids_are_distinct no_driver_error unary_uuid clock whole_page no_encode_error
           unary_uuid_inj busy_morning empty_world eq_refl).
Defined.

Lemma get_after_create_witness :
  (forall i j, unary_uuid i = unary_uuid j -> i = j)
  /\ documents empty_world = []
  /\ exists d fetched,
       fst (create_document no_driver_error unary_uuid clock
              (DocumentCreate_init "Fourth" (Some "\section{B}") None (Some ["x"]))
              (snd (run no_driver_error unary_uuid clock whole_page no_encode_error
                      busy_morning empty_world)))
         = inr d
       /\ fst (get_document no_driver_error (doc_id d)
                 (snd (create_document no_driver_error unary_uuid clock
                         (DocumentCreate_init "Fourth" (Some "\section{B}") None (Some ["x"]))
                         (snd (run no_driver_error unary_uuid clock whole_page
                                 no_encode_error busy_morning empty_world)))))
          = inr fetched
       /\ doc_content fetched = "\section{B}"
       /\ doc_created_at fetched = to_millis (doc_created_at d).
Proof.
  split; [exact unary_uuid_inj |]. split; [reflexivity |].
  destruct (get_document_after_create no_driver_error unary_uuid clock whole_page
              no_encode_error unary_uuid_inj busy_morning empty_world
              (DocumentCreate_init "Fourth" (Some "\section{B}") None (Some ["x"]))
              eq_refl eq_refl eq_refl)
    as (d & fetched & Hpost & Hget & _ & _ & Hcontent & _ & _ & _ & _ & Hcreated & _).
  exists d, fetched.
  split; [exact Hpost |]. split; [exact Hget |]. split; [exact Hcontent | exact Hcreated].
Defined.

Lemma delete_witness :
  NoDup (map doc_id (documents one_document_world))
  /\ In old_document (documents one_document_world)
  /\ documents (snd (delete_document no_driver_error "d1" one_document_world)) = []
  /\ fst (get_document no_driver_error "d1"
            (snd (delete_document no_driver_error "d1" one_document_world)))
     = inl (HTTPException 404 "Document not found").
Proof.
  assert (Hnd : NoDup (map doc_id (documents one_document_world)))
    by (repeat constructor; simpl; tauto).
  assert (Hin : In old_document (documents one_document_world)) by (left; reflexivity).
  destruct (delete_document_then_gone no_driver_error one_document_world old_document
              Hnd Hin eq_refl eq_refl)
    as (_ & Hdocs & Hget & _).
  split; [exact Hnd |]. split; [exact Hin |]. split; [exact Hdocs | exact Hget].
Defined.

Lemma get_template_witness :
  templates empty_world = []
  /\ In math_template builtin_templates
  /\ exists m,
       fst (get_template no_driver_error clock "template_math"
              (snd (initialize_templates no_driver_error empty_world)))
         = inr m
       /\ shows math_template m.
Proof.
  assert (Hin : In math_template builtin_templates)
    by (right; right; right; left; reflexivity).
  split; [reflexivity |]. split; [exact Hin |].
  destruct (get_template_after_seeding no_driver_error clock empty_world math_template
              eq_refl (fun i _ => eq_refl) Hin)
    as (m & Hr & Hm & _).
  exists m. split; [exact Hr | exact Hm].
Defined.

Lemma no_match_witness :
  no_driver_error (calls seeded_world) = None
  /\ "personal" <> ""
  /\ fst (get_templates no_driver_error clock (Some "personal") seeded_world) = inr [].
Proof.
  assert (Hne : "personal" <> "") by discriminate.
  split; [reflexivity |]. split; [exact Hne |].
  apply (get_templates_no_match no_driver_error clock seeded_world "personal" eq_refl Hne).
  intros t Ht. simpl in Ht.
  destruct Ht as [<- | [<- | [<- | [<- | [<- | []]]]]]; discriminate.
Defined.

Lemma request_outcomes_witness :
  GET_document "nope" <> Startup
  /\ outcome (GET_document "nope") one_document_world
       (handle no_driver_error unary_uuid clock whole_page no_encode_error
          (GET_document "nope") one_document_world).
Proof.
  assert (Hev : GET_document "nope" <> Startup) by discriminate.
  split; [exact Hev |].
  exact (request_outcomes no_driver_error unary_uuid clock whole_page no_encode_error
           (GET_document "nope") one_document_world Hev).
Defined.


